(** * Verification of the profiling core

    A shallow embedding of the Python package [profiling]:
    - [profiling/utils.py]: [Runnable], [frame_stack], [deferral];
    - [profiling/tracing/timers.py]: [ContextualTimer];
    - [profiling/sampling/samplers.py]: [ItimerSampler], [TracingSampler];
    - [profiling/profiler.py]: [Profiler].

    Conventions.  Clock readings and durations are exact integers (a number
    of clock ticks), so that arithmetic on them is exact.  A Python
    dictionary is a [gmap]; the order in which a dictionary is iterated is
    the order of [map_to_list].  An exception is a value of [exn]; a call
    that may raise returns an [outcome]. *)

From stdpp Require Import gmap strings list fin_maps.
From Stdlib Require Import ZArith Lia.

Open Scope Z_scope.

(** ** Exceptions and results *)

Inductive exn : Type :=
| RuntimeError (msg : string)
| TypeError (msg : string)
| NotImplementedError (msg : string)
| AttributeError
| StopIteration
| OtherError (code : nat).

(** What a call does: it returns a value or raises. *)
Inductive outcome (A : Type) : Type :=
| Ok (a : A)
| Raise (e : exn).
Arguments Ok {A} a.
Arguments Raise {A} e.

Definition raised {A : Type} (r : outcome A) : bool :=
  match r with Ok _ => false | Raise _ => true end.

(** Sequencing: a statement that raises ends the block it is in. *)
#[global] Instance outcome_ret : MRet outcome := λ A a, Ok a.
#[global] Instance outcome_bind : MBind outcome := λ A B f m,
  match m with
  | Ok a => f a
  | Raise e => Raise e
  end.

(** A Python value as far as the code inspects it: [None] or something else. *)
Inductive pyval : Type :=
| PyNone
| PyObj (n : Z).

Definition is_not_None (v : pyval) : bool :=
  match v with PyNone => false | PyObj _ => true end.

(** ** Generators

    A generator object is the rest of its body: the values it will still
    yield, and how the body ends (by returning, which [next] reports as
    [StopIteration], or by raising). *)

Inductive generator : Type :=
| GenYield (v : pyval) (rest : generator)
| GenReturn
| GenRaise (e : exn).

(** [next(g)]: the outcome, and the generator object after the call.  A
    generator whose body has ended keeps raising [StopIteration]. *)
Definition next (g : generator) : outcome pyval * generator :=
  match g with
  | GenYield v rest => (Ok v, rest)
  | GenReturn => (Raise StopIteration, GenReturn)
  | GenRaise e => (Raise e, GenReturn)
  end.

(** The values a generator yields, in order. *)
Fixpoint yields (g : generator) : list pyval :=
  match g with
  | GenYield v rest => v :: yields rest
  | GenReturn | GenRaise _ => []
  end.

(** How the body ends: [None] when it returns, [Some e] when it raises [e]. *)
Fixpoint finish (g : generator) : option exn :=
  match g with
  | GenYield _ rest => finish rest
  | GenReturn => None
  | GenRaise e => Some e
  end.

#[local] Set Warnings "-register-all".

(** ** Frames

    A frame object: [f_id] is its identity (what [is] compares), [f_code]
    the identity of its code object, [f_back] the frame of its caller. *)
Inductive frame : Type :=
  Frame { f_id : Z; f_code : Z; f_back : option frame }.

(** [a is b] on frames. *)
Definition frame_is (a b : frame) : bool := bool_decide (f_id a = f_id b).

(** [frame is base_frame], where [base_frame] may be [None] and [frame] is
    not. *)
Definition is_base (fr : frame) (base_frame : option frame) : bool :=
  match base_frame with
  | None => false
  | Some b => frame_is fr b
  end.

(** * profiling/utils.py *)
Module utils.

(** ** [class Runnable] *)

(** The instance attribute [_running]: [None], or the generator [run]
    returned. *)
Record Runnable : Type := mkRunnable { _running : option generator }.

(** [is_running]: [self._running is not None]. *)
Definition is_running (self : Runnable) : bool :=
  match _running self with
  | Some _ => true
  | None => false
  end.

(** [start].  [run] is the overriding method: called with the arguments of
    [start] it returns a generator object, or raises. *)
Definition start {Args : Type} (run : Args → outcome generator)
    (args : Args) (self : Runnable) : outcome unit * Runnable :=
  if is_running self then (Raise (RuntimeError "Already started"), self)
  else
    match run args with
    | Raise e => (Raise e, self)
    | Ok g =>
        (* self._running = self.run(...); yielded = next(self._running) *)
        let '(r, g') := next g in
        let self' := mkRunnable (Some g') in
        match r with
        | Raise StopIteration =>
            (Raise (TypeError "run() must yield just one time"), self')
        | Raise e => (Raise e, self')
        | Ok yielded =>
            if is_not_None yielded
            then (Raise (TypeError "run() must yield without value"), self')
            else (Ok (), self')
        end
    end.

(** [stop]. *)
Definition stop (self : Runnable) : outcome unit * Runnable :=
  match _running self with
  | None => (Raise (RuntimeError "Not started"), self)
  | Some running =>
      (* running, self._running = self._running, None *)
      let self' := mkRunnable None in
      match fst (next running) with
      | Raise StopIteration => (Ok (), self')
      | Raise e => (Raise e, self')
      | Ok _ => (Raise (TypeError "run() must yield just one time"), self')
      end
  end.

(** [Runnable.run] of the base class: a generator function whose body
    raises at once. *)
Definition run {Args : Type} (_ : Args) : outcome generator :=
  Ok (GenRaise (NotImplementedError "Implement run()")).

(** The calls a client can make on an instance. *)
Inductive call (Args : Type) : Type :=
| CallStart (args : Args)
| CallStop
| CallIsRunning.
Arguments CallStart {Args} args.
Arguments CallStop {Args}.
Arguments CallIsRunning {Args}.

Definition is_stop {Args : Type} (c : call Args) : bool :=
  match c with CallStop => true | _ => false end.

Definition do_call {Args : Type} (run : Args → outcome generator)
    (c : call Args) (self : Runnable) : Runnable :=
  match c with
  | CallStart args => snd (start run args self)
  | CallStop => snd (stop self)
  | CallIsRunning => self
  end.

(** A sequence of calls on one instance, the client catching what they
    raise. *)
Definition do_calls {Args : Type} (run : Args → outcome generator)
    (cs : list (call Args)) (self : Runnable) : Runnable :=
  foldl (λ s c, do_call run c s) self cs.

(** ** [frame_stack] (the pure Python branch) *)

(** The [while] loop, started at a frame that is not [None]; [frames] is the
    deque, its left end the head of the list. *)
Fixpoint frame_stack_loop (fr : frame) (base_frame : option frame)
    (ignoring_codes : gset Z) (frames : list frame) : list frame :=
  if is_base fr base_frame then frames
  else
    let frames' :=
      if bool_decide (f_code fr ∈ ignoring_codes) then frames
      else fr :: frames (* frames.appendleft(frame) *) in
    match f_back fr with
    | None => frames'
    | Some back => frame_stack_loop back base_frame ignoring_codes frames'
    end.

Definition frame_stack (fr : option frame) (base_frame : option frame)
    (ignoring_codes : gset Z) : list frame :=
  match fr with
  | None => []
  | Some fr => frame_stack_loop fr base_frame ignoring_codes []
  end.

(** The caller chain of a frame, innermost first. *)
Fixpoint chain (fr : frame) : list frame :=
  fr :: match f_back fr with
        | None => []
        | Some back => chain back
        end.

(** The frames of a chain that come before the first one that is the base
    frame; all of them when there is none. *)
Fixpoint before_base (base_frame : option frame) (frames : list frame)
    : list frame :=
  match frames with
  | [] => []
  | fr :: frames' =>
      if is_base fr base_frame then []
      else fr :: before_base base_frame frames'
  end.

(** ** [deferral] *)

Section Deferral.
(** [W] is the state the deferred calls act on (signal handlers, timers,
    trace callbacks); [Call] is a triple [(f, a, k)] and [invoke] what
    calling [f] with [a] and [k] does.  A call does not reach the list [deferred], which is
    local to the scope. *)
Context {W Call : Type}.
Variable invoke : Call → W → outcome unit * W.

(** A statement of the body of [with deferral() as defer:]: it registers a
    call, [defer(f, *a, **k)], or makes one. *)
Inductive stmt : Type :=
| Defer (c : Call)
| Do (c : Call).

(** The body, run from its first statement; [deferred] is the Python list,
    appended to at its end. *)
Fixpoint exec_body (body : list stmt) (deferred : list Call) (w : W)
    : outcome unit * list Call * W :=
  match body with
  | [] => (Ok (), deferred, w)
  | Defer c :: body' => exec_body body' (deferred ++ [c]) w
  | Do c :: body' =>
      match invoke c w with
      | (Raise e, w') => (Raise e, deferred, w')
      | (Ok _, w') => exec_body body' deferred w'
      end
  end.

(** [while deferred: f, a, k = deferred.pop()], then the call of [f] with
    [a] and [k]; every turn shortens the list, so its length is fuel
    enough. *)
Fixpoint unwind_loop (fuel : nat) (deferred : list Call) (w : W)
    : outcome unit * W :=
  match fuel with
  | O => (Ok (), w)
  | S fuel' =>
      match last deferred with
      | None => (Ok (), w)
      | Some c =>
          match invoke c w with
          | (Raise e, w') => (Raise e, w')
          | (Ok _, w') => unwind_loop fuel' (removelast deferred) w'
          end
      end
  end.

Definition unwind (deferred : list Call) (w : W) : outcome unit * W :=
  unwind_loop (length deferred) deferred w.

(** [with deferral() as defer: body].  What the body raised is raised
    again after the [finally] block, unless that block raises itself. *)
Definition deferral (body : list stmt) (w : W) : outcome unit * W :=
  let '(r, deferred, w1) := exec_body body [] w in
  match unwind deferred w1 with
  | (Raise e, w2) => (Raise e, w2)
  | (Ok _, w2) => (r, w2)
  end.

(** The calls a run of the body registers, in the order of registration. *)
Definition registered (body : list stmt) (w : W) : list Call :=
  snd (fst (exec_body body [] w)).

(** The calls the statements register when all of them run. *)
Fixpoint defers (body : list stmt) : list Call :=
  match body with
  | [] => []
  | Defer c :: body' => c :: defers body'
  | Do _ :: body' => defers body'
  end.

(** Running the calls of a list from left to right, stopping at the first
    that raises. *)
Fixpoint invoke_all (cs : list Call) (w : W) : outcome unit * W :=
  match cs with
  | [] => (Ok (), w)
  | c :: cs' =>
      match invoke c w with
      | (Raise e, w') => (Raise e, w')
      | (Ok _, w') => invoke_all cs' w'
      end
  end.
End Deferral.

Arguments stmt : clear implicits.

(** The same calls on a state that also keeps the list of the calls made,
    oldest first. *)
Definition logged {W Call : Type} (invoke : Call → W → outcome unit * W)
    (c : Call) (wl : W * list Call) : outcome unit * (W * list Call) :=
  let '(r, w') := invoke c (fst wl) in (r, (w', snd wl ++ [c])).

End utils.

(** * profiling/tracing/timers.py *)
Module timers.

(** ** [class ContextualTimer]

    The attribute [_contextual_times] is a dictionary from a context to the
    pair [(paused_at, resumed_at)]; [resumed_at] is [None] while the context
    is paused.  A context is a Python value: [None], or an identifier. *)
Record ContextualTimer : Type :=
  mkContextualTimer { _contextual_times : gmap (option Z) (Z * option Z) }.

Section ContextualTimer.
(** [detect_context] is the method a subclass overrides. *)
Variable detect_context : outcome (option Z).

(** [if context is None: context = self.detect_context()]. *)
Definition context_or_detect (context : option Z) : outcome (option Z) :=
  match context with
  | None => detect_context
  | Some _ => Ok context
  end.

(** [self._contextual_times.get(context, (0, 0))]. *)
Definition times_get (self : ContextualTimer) (context : option Z)
    : Z * option Z :=
  default (0, Some 0) (_contextual_times self !! context).

(** [__call__]; [clock] is what [clock()] returns when it is called. *)
Definition __call__ (clock : Z) (context : option Z) (self : ContextualTimer)
    : outcome Z :=
  context ← context_or_detect context;
  let '(paused_at, resumed_at) := times_get self context in
  match resumed_at with
  | None => Ok paused_at (* paused *)
  | Some resumed_at => Ok (paused_at + clock - resumed_at)
  end.

Definition pause (clock : Z) (context : option Z) (self : ContextualTimer)
    : outcome unit * ContextualTimer :=
  match context_or_detect context with
  | Raise e => (Raise e, self)
  | Ok context =>
      match __call__ clock context self with
      | Raise e => (Raise e, self)
      | Ok elapsed =>
          (Ok (), mkContextualTimer
                    (<[context := (elapsed, None)]> (_contextual_times self)))
      end
  end.

Definition resume (clock : Z) (context : option Z) (self : ContextualTimer)
    : outcome unit * ContextualTimer :=
  match context_or_detect context with
  | Raise e => (Raise e, self)
  | Ok context =>
      let '(paused_at, _) := times_get self context in
      (Ok (), mkContextualTimer
                (<[context := (paused_at, Some clock)]>
                   (_contextual_times self)))
  end.
End ContextualTimer.

(** The calls a client makes on a timer, each with the reading of the clock
    at that call. *)
Inductive op : Type :=
| CallElapsed (clock : Z) (context : option Z)
| CallPause (clock : Z) (context : option Z)
| CallResume (clock : Z) (context : option Z).

Definition timer_call (detect_context : outcome (option Z)) (c : op)
    (self : ContextualTimer) : ContextualTimer :=
  match c with
  | CallElapsed _ _ => self
  | CallPause clock context => snd (pause detect_context clock context self)
  | CallResume clock context => snd (resume detect_context clock context self)
  end.

Definition timer_calls (detect_context : outcome (option Z)) (cs : list op)
    (self : ContextualTimer) : ContextualTimer :=
  foldl (λ s c, timer_call detect_context c s) self cs.

(** Whether a call is a [pause] or a [resume] of the context [ctx]. *)
Definition pauses_or_resumes (detect_context : outcome (option Z)) (ctx : Z)
    (c : op) : bool :=
  match c with
  | CallElapsed _ _ => false
  | CallPause _ context | CallResume _ context =>
      match context_or_detect detect_context context with
      | Ok (Some k) => bool_decide (k = ctx)
      | _ => false
      end
  end.

(** [ContextualTimer.detect_context] of the base class. *)
Definition detect_context : outcome (option Z) :=
  Raise (NotImplementedError "detect_context() should be implemented").

(** [ContextualTimer.__new__]. *)
Definition __new__ : ContextualTimer := mkContextualTimer ∅.

End timers.

(** * profiling/sampling/samplers.py *)
Module samplers.

Record ItimerSampler : Type :=
  mkItimerSampler { itimer_interval : Z; main_thread_id : Z }.

Record TracingSampler : Type :=
  mkTracingSampler { interval : Z; sampled_at : Z }.

(** [TracingSampler(interval)]: the class attribute [sampled_at = 0]. *)
Definition __init__ (interval : Z) : TracingSampler :=
  mkTracingSampler interval 0.

Section Sampling.
(** The profiler is known by its method [sample], which takes a frame and
    changes the profiler. *)
Context {P : Type}.
Variable sample : frame → P → P.

(** [for frame in frames.values(): profiler.sample(frame)]. *)
Definition sample_values (frames : gmap Z frame) (profiler : P) : P :=
  foldl (λ p fr, sample fr p) profiler (map_to_list frames).*2.

(** [handle_signal]; [current_frames] is what [self.current_frames()]
    returns. *)
Definition handle_signal (self : ItimerSampler) (current_frames : gmap Z frame)
    (profiler : P) (signum : Z) (fr : frame) : P :=
  let frames := current_frames in
  let frames := <[main_thread_id self := fr]> frames in
  sample_values frames profiler.

(** [_profile]; [clock], [current_frames] and [get_ident] are what the calls
    of these names return. *)
Definition _profile (self : TracingSampler) (clock : Z)
    (current_frames : gmap Z frame) (get_ident : Z)
    (profiler : P) (fr : frame) (event arg : pyval) : TracingSampler * P :=
  let t := clock in
  if bool_decide (t - sampled_at self < interval self) then (self, profiler)
  else
    let self := mkTracingSampler (interval self) t in
    let frames := current_frames in
    let frames := <[get_ident := fr]> frames in
    (self, sample_values frames profiler).
End Sampling.

(** A profiler that only keeps the frames it was given, oldest first. *)
Definition record_sample (fr : frame) (log : list frame) : list frame :=
  log ++ [fr].

End samplers.

(** * profiling/profiler.py *)
Module profiler.

Section Profiler.
(** [RecordingStatistics] is defined in [profiling/stats.py]; here it is a
    type [Stats] with its method [clear]. *)
Context {Stats : Type}.
Variable clear : Stats → Stats.

(** An attribute that [start] creates is [None] as long as it does not
    exist. *)
Record Profiler : Type := mkProfiler {
  stats : Stats;
  base_frame : option frame;
  ignoring_codes : gset Z;
  _cpu_time_started : option Z;
  _wall_time_started : option Z;
  runnable : utils.Runnable
}.

Definition __init__ (new_stats : Stats) (base_frame : option frame)
    (ignoring_codes : gset Z) : Profiler :=
  mkProfiler new_stats base_frame ignoring_codes None None
    (utils.mkRunnable None).

Definition set_cpu_time_started (v : Z) (self : Profiler) : Profiler :=
  mkProfiler (stats self) (base_frame self) (ignoring_codes self)
    (Some v) (_wall_time_started self) (runnable self).

Definition set_wall_time_started (v : Z) (self : Profiler) : Profiler :=
  mkProfiler (stats self) (base_frame self) (ignoring_codes self)
    (_cpu_time_started self) (Some v) (runnable self).

Definition set_stats (v : Stats) (self : Profiler) : Profiler :=
  mkProfiler v (base_frame self) (ignoring_codes self)
    (_cpu_time_started self) (_wall_time_started self) (runnable self).

Definition set_runnable (v : utils.Runnable) (self : Profiler) : Profiler :=
  mkProfiler (stats self) (base_frame self) (ignoring_codes self)
    (_cpu_time_started self) (_wall_time_started self) v.

(** [start]; [clock] and [time] are what [time.clock()] and [time.time()]
    return, [run] is the method a subclass overrides. *)
Definition start (run : unit → outcome generator) (clock time : Z)
    (self : Profiler) : outcome unit * Profiler :=
  let self := set_cpu_time_started clock self in
  let self := set_wall_time_started time self in
  let self := set_stats (clear (stats self)) self in
  (* return super(Profiler, self).start() *)
  let '(r, rn) := utils.start run () (runnable self) in
  (r, set_runnable rn self).

Definition stop (self : Profiler) : outcome unit * Profiler :=
  let '(r, rn) := utils.stop (runnable self) in
  (r, set_runnable rn self).

Definition frame_stack (self : Profiler) (fr : option frame) : list frame :=
  utils.frame_stack fr (base_frame self) (ignoring_codes self).

(** Reading an attribute of [self]. *)
Definition getattr {A : Type} (attr : option A) : outcome A :=
  match attr with
  | Some v => Ok v
  | None => Raise AttributeError
  end.

(** [result]; it returns the tuple and the instance as it leaves it. *)
Definition result (clock time : Z) (self : Profiler)
    : outcome (Stats * Z * Z) * Profiler :=
  let try_block : outcome (Z * Z) :=
    cpu_time_started ← getattr (_cpu_time_started self);
    let cpu_time := Z.max 0 (clock - cpu_time_started) in
    wall_time_started ← getattr (_wall_time_started self);
    let wall_time := Z.max 0 (time - wall_time_started) in
    Ok (cpu_time, wall_time) in
  match try_block with
  | Ok (cpu_time, wall_time) => (Ok (stats self, cpu_time, wall_time), self)
  | Raise AttributeError => (Ok (stats self, 0, 0), self)
  | Raise e => (Raise e, self)
  end.
End Profiler.

Arguments Profiler : clear implicits.

End profiler.

(** * Concrete inputs *)

(** [def run(self): yield 1]. *)
Definition run_yield_value (_ : unit) : outcome generator :=
  Ok (GenYield (PyObj 1) GenReturn).

(** [def run(self): yield; raise ...]. *)
Definition run_yield_then_raise (_ : unit) : outcome generator :=
  Ok (GenYield PyNone (GenRaise (OtherError 0))).

(** [def run(self): yield]. *)
Definition run_canonical (_ : unit) : outcome generator :=
  Ok (GenYield PyNone GenReturn).

(** [def run(self): return; yield]. *)
Definition run_no_yield (_ : unit) : outcome generator := Ok GenReturn.

Definition stopped : utils.Runnable := utils.mkRunnable None.

(** Deferred calls on a counter: the call [c] adds [c]. *)
Definition invoke_add (c : Z) (w : Z) : outcome unit * Z := (Ok (), w + c).

(** The same, except that the call [1] raises. *)
Definition invoke_add_fail (c : Z) (w : Z) : outcome unit * Z :=
  if bool_decide (c = 1) then (Raise (OtherError 1), w) else (Ok (), w + c).

(** A chain of three frames: [frame_c] was called by [frame_b], which was
    called by [frame_a]. *)
Definition frame_a : frame := Frame 100 1 None.
Definition frame_b : frame := Frame 101 2 (Some frame_a).
Definition frame_c : frame := Frame 102 3 (Some frame_b).

(** What [current_frames()] returns with two threads, [1] and [2]. *)
Definition two_threads : gmap Z frame := {[1 := frame_a; 2 := frame_b]}.

(** * Clients of [Runnable] *)

(** [n] times [start(args); stop()], up to the first call that raises. *)
Fixpoint start_stop_cycles {Args : Type} (run : Args → outcome generator)
    (args : Args) (n : nat) (self : utils.Runnable)
    : outcome unit * utils.Runnable :=
  match n with
  | O => (Ok (), self)
  | S n' =>
      match utils.start run args self with
      | (Raise e, self1) => (Raise e, self1)
      | (Ok _, self1) =>
          match utils.stop self1 with
          | (Raise e, self2) => (Raise e, self2)
          | (Ok _, self2) => start_stop_cycles run args n' self2
          end
      end
  end.

(** [Runnable.__enter__]: [self.start()], and [self] is returned. *)
Definition __enter__ (run : unit → outcome generator) (self : utils.Runnable)
    : outcome unit * utils.Runnable :=
  utils.start run () self.

(** [Runnable.__exit__]: [self.stop()]; it returns [None]. *)
Definition __exit__ (self : utils.Runnable) : outcome unit * utils.Runnable :=
  utils.stop self.

(** [with self: body]; the body may call the methods of the instance.  What
    the body raises is raised again after [__exit__], unless [__exit__]
    raises itself. *)
Definition with_runnable {A : Type} (run : unit → outcome generator)
    (body : utils.Runnable → outcome A * utils.Runnable)
    (self : utils.Runnable) : outcome A * utils.Runnable :=
  match __enter__ run self with
  | (Raise e, self) => (Raise e, self)
  | (Ok _, self) =>
      let '(r, self) := body self in
      match __exit__ self with
      | (Raise e, self) => (Raise e, self)
      | (Ok _, self) => (r, self)
      end
  end.

(** [class Timer] of [profiling/tracing/timers.py]. *)
Module Timer.

(** [__call__]: [return clock()]. *)
Definition __call__ (clock : Z) : Z := clock.

(** [run(self, profiler)]: a generator function whose body is [yield]. *)
Definition run {Profiler : Type} (_ : Profiler) : outcome generator :=
  Ok (GenYield PyNone GenReturn).

End Timer.

(** [class LazyImport] of [profiling/utils.py]. *)
Module LazyImport.

Section LazyImport.
(** [Module] is the type of module objects; none of them is [None]. *)
Context {Module : Type}.

Record LazyImport : Type :=
  mkLazyImport { module_name : string; module : option Module }.

Definition __init__ (module_name : string) : LazyImport :=
  mkLazyImport module_name None.

(** [__get__]; [__import__] is what the built-in function of this name does
    at the time of the call. *)
Definition __get__ (__import__ : string → outcome Module)
    (self : LazyImport) : outcome Module * LazyImport :=
  match module self with
  | None =>
      match __import__ (module_name self) with
      | Raise e => (Raise e, self)
      | Ok m => (Ok m, mkLazyImport (module_name self) (Some m))
      end
  | Some m => (Ok m, self)
  end.
End LazyImport.

Arguments LazyImport : clear implicits.

End LazyImport.

(** [class GreenletTimer] of [profiling/tracing/timers.py]. *)
Module GreenletTimer.

(** [detect_context]; [greenlet] is what reading the attribute [greenlet]
    gives, an error or the truth value of the module, and [getcurrent] is
    [id(self.greenlet.getcurrent())]. *)
Definition detect_context (greenlet : outcome bool) (getcurrent : Z)
    : outcome (option Z) :=
  g ← greenlet;
  if g : bool then Ok (Some getcurrent) else Ok None.

(** [_trace]; [origin] and [target] are the identities of the two greenlets
    of [args], [clock_pause] and [clock_resume] what [clock()] returns in
    [pause] and in [resume]. *)
Definition _trace (detect_context : outcome (option Z))
    (clock_pause clock_resume : Z) (event : pyval) (origin target : Z)
    (self : timers.ContextualTimer) : outcome unit * timers.ContextualTimer :=
  match timers.pause detect_context clock_pause (Some origin) self with
  | (Raise e, self) => (Raise e, self)
  | (Ok _, self) => timers.resume detect_context clock_resume (Some target) self
  end.

(** A switch of greenlets as the trace function sees it. *)
Record switch : Type := mkSwitch {
  clock_pause : Z;
  clock_resume : Z;
  origin : Z;
  target : Z
}.

(** The trace function called for each switch of a list, oldest first. *)
Definition trace_all (detect_context : outcome (option Z))
    (switches : list switch) (self : timers.ContextualTimer)
    : timers.ContextualTimer :=
  foldl (λ s sw, snd (_trace detect_context (clock_pause sw) (clock_resume sw)
                        PyNone (origin sw) (target sw) s))
    self switches.

(** Whether each switch of the list leaves the greenlet that the one before
    it entered, [current] before the first, for another greenlet. *)
Fixpoint follows (current : Z) (switches : list switch) : bool :=
  match switches with
  | [] => true
  | sw :: switches' =>
      bool_decide (origin sw = current) && negb (bool_decide (target sw = current))
      && follows (target sw) switches'
  end.

(** The greenlet that runs after the switches. *)
Definition last_target (current : Z) (switches : list switch) : Z :=
  foldl (λ _ sw, target sw) current switches.

(** The time the clock advanced between the two readings of each switch. *)
Definition switching_time (switches : list switch) : Z :=
  foldr (λ sw acc, (clock_resume sw - clock_pause sw) + acc) 0 switches.

End GreenletTimer.

(** The elapsed time of an entry of [_contextual_times] when the clock
    reads [clock]. *)
Definition entry_elapsed (clock : Z) (entry : Z * option Z) : Z :=
  match entry with
  | (paused_at, None) => paused_at
  | (paused_at, Some resumed_at) => paused_at + clock - resumed_at
  end.

(** The elapsed times of all the contexts of a timer, added up. *)
Definition total_elapsed (clock : Z) (self : timers.ContextualTimer) : Z :=
  map_fold (λ _ entry acc, entry_elapsed clock entry + acc) 0
    (timers._contextual_times self).

(** What the trace function keeps true from switch to switch, [current]
    being the greenlet that runs and [lost] the time the clock advanced
    between the two readings of the switches: the other contexts are
    paused, [current] is not, and the elapsed times add up to the reading
    of the clock less [lost]. *)
Definition switch_invariant (current lost : Z)
    (self : timers.ContextualTimer) : Prop :=
  (∀ k entry, k ≠ Some current →
     timers._contextual_times self !! k = Some entry → entry.2 = None) ∧
  (∀ p, timers._contextual_times self !! Some current ≠ Some (p, None)) ∧
  (∀ clock,
     total_elapsed clock
       (timers.mkContextualTimer
          (delete (Some current) (timers._contextual_times self)))
     + entry_elapsed clock (timers.times_get self (Some current))
     = clock - lost).

(** * Calls of the callback of [TracingSampler] *)

(** A call of [_profile]: what [clock()], [current_frames()] and
    [get_ident()] return in it, and the frame of the event. *)
Record event : Type := mkEvent {
  ev_clock : Z;
  ev_frames : gmap Z frame;
  ev_ident : Z;
  ev_frame : frame
}.

(** [_profile] called for each event of a list, oldest first. *)
Definition profile_all {P : Type} (sample : frame → P → P)
    (events : list event) (self : samplers.TracingSampler) (profiler : P)
    : samplers.TracingSampler * P :=
  foldl (λ sp ev,
           samplers._profile sample sp.1 (ev_clock ev) (ev_frames ev)
             (ev_ident ev) sp.2 (ev_frame ev) PyNone PyNone)
    (self, profiler) events.

(** The events of a list at which a sample is taken, for a sampler whose
    last sample was taken at [sampled_at]. *)
Fixpoint accepted (interval sampled_at : Z) (events : list event)
    : list event :=
  match events with
  | [] => []
  | ev :: events' =>
      if bool_decide (ev_clock ev - sampled_at < interval)
      then accepted interval sampled_at events'
      else ev :: accepted interval (ev_clock ev) events'
  end.

(** The frames of an event, the frame of the event in the place of the
    calling thread. *)
Definition event_frames (ev : event) : gmap Z frame :=
  <[ev_ident ev := ev_frame ev]> (ev_frames ev).

(** * [Runnable] with the state its generator acts on

    The body of [run] of a sampler installs and removes handlers that are
    global to the process.  Here a generator object is a function of the
    state [W] its body acts on: resumed, it changes the state, and it
    yields and goes on as another generator, returns, or raises. *)
Module stateful.

Section Stateful.
Context {W : Type}.

Inductive generator : Type :=
  Gen (resume : W → step * W)
with step : Type :=
| Yielded (v : pyval) (rest : generator)
| Returned
| Raised (e : exn).

(** A generator whose body has ended. *)
Definition exhausted : generator := Gen (λ w, (Returned, w)).

(** [next(g)]. *)
Definition next (g : generator) (w : W) : outcome pyval * generator * W :=
  match g with
  | Gen resume =>
      match resume w with
      | (Yielded v rest, w') => (Ok v, rest, w')
      | (Returned, w') => (Raise StopIteration, exhausted, w')
      | (Raised e, w') => (Raise e, exhausted, w')
      end
  end.

Record Runnable : Type := mkRunnable { _running : option generator }.

Definition is_running (self : Runnable) : bool :=
  match _running self with
  | Some _ => true
  | None => false
  end.

(** [Runnable.start]. *)
Definition start {Args : Type} (run : Args → outcome generator)
    (args : Args) (self : Runnable) (w : W) : outcome unit * Runnable * W :=
  if is_running self then (Raise (RuntimeError "Already started"), self, w)
  else
    match run args with
    | Raise e => (Raise e, self, w)
    | Ok g =>
        let '(r, g', w') := next g w in
        let self' := mkRunnable (Some g') in
        match r with
        | Raise StopIteration =>
            (Raise (TypeError "run() must yield just one time"), self', w')
        | Raise e => (Raise e, self', w')
        | Ok yielded =>
            if is_not_None yielded
            then (Raise (TypeError "run() must yield without value"),
                  self', w')
            else (Ok (), self', w')
        end
    end.

(** [Runnable.stop]. *)
Definition stop (self : Runnable) (w : W) : outcome unit * Runnable * W :=
  match _running self with
  | None => (Raise (RuntimeError "Not started"), self, w)
  | Some running =>
      let self' := mkRunnable None in
      let '(r, _, w') := next running w in
      match r with
      | Raise StopIteration => (Ok (), self', w')
      | Raise e => (Raise e, self', w')
      | Ok _ =>
          (Raise (TypeError "run() must yield just one time"), self', w')
      end
  end.

End Stateful.

Arguments generator : clear implicits.
Arguments step : clear implicits.
Arguments Runnable : clear implicits.

End stateful.

(** A generator that acts on no state, seen as one that does. *)
Fixpoint lift {W : Type} (g : generator) : stateful.generator W :=
  match g with
  | GenYield v rest =>
      stateful.Gen (λ w, (stateful.Yielded v (lift rest), w))
  | GenReturn => stateful.Gen (λ w, (stateful.Returned, w))
  | GenRaise e => stateful.Gen (λ w, (stateful.Raised e, w))
  end.

Definition lift_runnable {W : Type} (self : utils.Runnable)
    : stateful.Runnable W :=
  stateful.mkRunnable (lift <$> utils._running self).

Definition lift_run {W Args : Type} (run : Args → outcome generator)
    (args : Args) : outcome (stateful.generator W) :=
  match run args with
  | Ok g => Ok (lift g)
  | Raise e => Raise e
  end.

(** * The state of the process the samplers act on

    The slots that [signal.signal], [signal.setitimer], [sys.setprofile],
    [threading.setprofile] and [greenlet.settrace] read and write, as the
    documentation of these functions describes them. *)
Module process.

(** A handler of a signal: the default one, none, or a Python callable. *)
Inductive handler : Type :=
| SIG_DFL
| SIG_IGN
| PyHandler (f : Z).

Record state : Type := mkState {
  (** the handler of [SIGPROF] *)
  sigprof_handler : handler;
  (** the delay and the interval of [ITIMER_PROF] *)
  itimer_prof : Z * Z;
  (** the profile function of the running thread *)
  sys_profile : option Z;
  (** the profile function of the threads started from [threading] *)
  threading_profile : option Z;
  (** the trace function of [greenlet] *)
  greenlet_trace : option Z;
  (** whether the calling thread is the main thread *)
  main_thread : bool
}.

(** The errors of these functions, exception classes the code does not
    name. *)
Definition ValueError : exn := OtherError 1.
Definition ItimerError : exn := OtherError 2.

(** [signal.signal(signal.SIGPROF, h)]: allowed in the main thread only;
    it returns the handler it replaces. *)
Definition signal (h : handler) (s : state) : outcome handler * state :=
  if main_thread s
  then (Ok (sigprof_handler s),
        mkState h (itimer_prof s) (sys_profile s) (threading_profile s)
          (greenlet_trace s) (main_thread s))
  else (Raise ValueError, s).

(** [signal.setitimer(signal.ITIMER_PROF, seconds, interval)]: it returns
    the old values; negative values are an error. *)
Definition setitimer (seconds interval : Z) (s : state)
    : outcome (Z * Z) * state :=
  if bool_decide (0 ≤ seconds ∧ 0 ≤ interval)
  then (Ok (itimer_prof s),
        mkState (sigprof_handler s) (seconds, interval) (sys_profile s)
          (threading_profile s) (greenlet_trace s) (main_thread s))
  else (Raise ItimerError, s).

(** [sys.setprofile(f)]. *)
Definition sys_setprofile (f : option Z) (s : state) : state :=
  mkState (sigprof_handler s) (itimer_prof s) f (threading_profile s)
    (greenlet_trace s) (main_thread s).

(** [threading.setprofile(f)]. *)
Definition threading_setprofile (f : option Z) (s : state) : state :=
  mkState (sigprof_handler s) (itimer_prof s) (sys_profile s) f
    (greenlet_trace s) (main_thread s).

(** [greenlet.settrace(f)]. *)
Definition settrace (f : option Z) (s : state) : state :=
  mkState (sigprof_handler s) (itimer_prof s) (sys_profile s)
    (threading_profile s) f (main_thread s).

(** The calls the samplers defer: the function and its arguments. *)
Inductive call : Type :=
| call_signal (h : handler)
| call_setitimer (seconds interval : Z)
| call_sys_setprofile (f : option Z)
| call_threading_setprofile (f : option Z).

(** What a deferred call does; what it returns is dropped. *)
Definition invoke (c : call) (s : state) : outcome unit * state :=
  match c with
  | call_signal h =>
      match signal h s with
      | (Ok _, s') => (Ok (), s')
      | (Raise e, s') => (Raise e, s')
      end
  | call_setitimer seconds interval =>
      match setitimer seconds interval s with
      | (Ok _, s') => (Ok (), s')
      | (Raise e, s') => (Raise e, s')
      end
  | call_sys_setprofile f => (Ok (), sys_setprofile f s)
  | call_threading_setprofile f => (Ok (), threading_setprofile f s)
  end.

(** The end of a block [with deferral() as defer:] that leaves with [r]:
    the deferred calls are made, and one that raises replaces [r]. *)
Definition leave_deferral (deferred : list call)
    (r : stateful.step state) (s : state) : stateful.step state * state :=
  match utils.unwind invoke deferred s with
  | (Raise e, s') => (stateful.Raised e, s')
  | (Ok _, s') => (r, s')
  end.

End process.

(** * The [run] methods that act on the process *)

(** [ItimerSampler.run(profiler)].  [handle], the partial application of
    [handle_signal] to the profiler, is known by the identity [profiler];
    the [yield] is inside the [with] block, which the generator leaves when
    it is resumed. *)
Definition ItimerSampler_run (self : samplers.ItimerSampler) (profiler : Z)
    : outcome (stateful.generator process.state) :=
  Ok (stateful.Gen (λ s,
    let handle := process.PyHandler profiler in
    let t := samplers.itimer_interval self in
    let deferred := [] in
    match process.signal handle s with
    | (Raise e, s) => process.leave_deferral deferred (stateful.Raised e) s
    | (Ok prev_handle, s) =>
        let deferred := deferred ++ [process.call_signal prev_handle] in
        match process.setitimer t t s with
        | (Raise e, s) =>
            process.leave_deferral deferred (stateful.Raised e) s
        | (Ok prev_itimer, s) =>
            let deferred :=
              deferred
              ++ [process.call_setitimer prev_itimer.1 prev_itimer.2] in
            (stateful.Yielded PyNone
               (stateful.Gen (λ s,
                  process.leave_deferral deferred stateful.Returned s)),
             s)
        end
    end)).

(** [TracingSampler.run(profiler)]; [profile], the partial application of
    [_profile] to the profiler, is known by the identity [profiler]. *)
Definition TracingSampler_run (self : samplers.TracingSampler) (profiler : Z)
    : outcome (stateful.generator process.state) :=
  Ok (stateful.Gen (λ s,
    let profile := Some profiler in
    let deferred := [] in
    let s := process.sys_setprofile profile s in
    let deferred := deferred ++ [process.call_sys_setprofile None] in
    let s := process.threading_setprofile profile s in
    let deferred := deferred ++ [process.call_threading_setprofile None] in
    (stateful.Yielded PyNone
       (stateful.Gen (λ s,
          process.leave_deferral deferred stateful.Returned s)),
     s))).

(** [GreenletTimer.run(profiler)]; [greenlet] is what reading the attribute
    [greenlet] does the first time, and [trace] the identity of
    [self._trace].  The attribute is a [LazyImport]: once it was read, a
    later read returns the module. *)
Definition GreenletTimer_run (greenlet : outcome unit) (trace : Z)
    (profiler : Z) : outcome (stateful.generator process.state) :=
  Ok (stateful.Gen (λ s,
    match greenlet with
    | Raise e => (stateful.Raised e, s)
    | Ok _ =>
        let s := process.settrace (Some trace) s in
        (stateful.Yielded PyNone
           (stateful.Gen (λ s,
              let s := process.settrace None s in
              (stateful.Returned, s))),
         s)
    end)).

(** * Properties of [Runnable] *)

Lemma start_when_running {Args : Type} (run : Args → outcome generator)
    (args : Args) (self : utils.Runnable) :
  utils.is_running self = true →
  utils.start run args self = (Raise (RuntimeError "Already started"), self).
Proof. intros Hrun. unfold utils.start. by rewrite Hrun. Qed.

Lemma stop_when_stopped (self : utils.Runnable) :
  utils.is_running self = false →
  utils.stop self = (Raise (RuntimeError "Not started"), self).
Proof.
  unfold utils.is_running, utils.stop. by destruct (utils._running self).
Qed.

Lemma stop_always_stops (self : utils.Runnable) :
  utils.is_running self = true →
  utils.is_running (snd (utils.stop self)) = false.
Proof.
  unfold utils.is_running, utils.stop.
  destruct (utils._running self) as [g|]; [intros _|done].
  by destruct (fst (next g)) as [v|[]].
Qed.

(** A generator that yields [None] once and returns is a canonical [run]. *)
Lemma canonical_shape (g : generator) :
  yields g = [PyNone] → finish g = None → g = GenYield PyNone GenReturn.
Proof.
  destruct g as [v rest| |e]; simpl; [|done..].
  intros Hy Hf. injection Hy as -> Hrest.
  destruct rest; simpl in *; congruence.
Qed.

Lemma no_yield_shape (g : generator) :
  yields g = [] → finish g = None → g = GenReturn.
Proof. destruct g; simpl; congruence. Qed.

(** Calls other than [stop] leave a running instance as it is. *)
Lemma running_until_stop {Args : Type} (run : Args → outcome generator)
    (cs : list (utils.call Args)) (self : utils.Runnable) :
  utils.is_running self = true →
  forallb (λ c, negb (utils.is_stop c)) cs = true →
  utils.do_calls run cs self = self.
Proof.
  intros Hrun. unfold utils.do_calls.
  induction cs as [|c cs IH]; simpl; [done|].
  intros [Hc Hcs]%andb_prop. destruct c as [args| |]; simpl in *; [|done|auto].
  rewrite start_when_running by done. auto.
Qed.

(** C1, as the code has it: when [run] returns a generator that yields
    exactly once, yields no value ([None]) and then returns, [start()]
    followed by [stop()] succeeds and leaves the instance stopped; [start()]
    on a running instance raises [RuntimeError] whatever [run] is, so [run]
    is not called, and changes nothing; [stop()] on an instance that is not
    running raises [RuntimeError] and changes nothing. *)
Theorem start_stop_lifecycle {Args : Type} (run : Args → outcome generator)
    (args : Args) (g : generator) :
  run args = Ok g → yields g = [PyNone] → finish g = None →
  (∀ self, utils.is_running self = false →
     ∃ self1 self2,
       utils.start run args self = (Ok (), self1) ∧
       utils.is_running self1 = true ∧
       utils.stop self1 = (Ok (), self2) ∧
       utils.is_running self2 = false) ∧
  (∀ self (run' : Args → outcome generator) (args' : Args),
     utils.is_running self = true →
     utils.start run' args' self
     = (Raise (RuntimeError "Already started"), self)) ∧
  (∀ self, utils.is_running self = false →
     utils.stop self = (Raise (RuntimeError "Not started"), self)).
Proof.
  intros Hrun Hy Hf. rewrite (canonical_shape g Hy Hf) in Hrun.
  split; [|split].
  - intros self Hstopped. eexists _, _.
    unfold utils.start. rewrite Hstopped, Hrun. simpl. done.
  - intros self run' args' Hrunning. by apply start_when_running.
  - apply stop_when_stopped.
Qed.

Lemma start_stop_lifecycle_witness :
  (∀ self, utils.is_running self = false →
     ∃ self1 self2,
       utils.start run_canonical () self = (Ok (), self1) ∧
       utils.is_running self1 = true ∧
       utils.stop self1 = (Ok (), self2) ∧
       utils.is_running self2 = false) ∧
  (∀ self (run' : unit → outcome generator) (args' : unit),
     utils.is_running self = true →
     utils.start run' args' self
     = (Raise (RuntimeError "Already started"), self)) ∧
  (∀ self, utils.is_running self = false →
     utils.stop self = (Raise (RuntimeError "Not started"), self)).
Proof.
  exact (start_stop_lifecycle run_canonical () (GenYield PyNone GenReturn)
           eq_refl eq_refl eq_refl).
Defined.

(** C1, as the claim has it, fails: a [run] that yields exactly once, but a
    value, makes [start()] raise [TypeError]; and a [run] that yields
    exactly once and then raises makes [stop()] raise. *)
Lemma single_yield_not_enough :
  (∃ g, run_yield_value () = Ok g ∧ length (yields g) = 1%nat ∧
     utils.start run_yield_value () stopped
     = (Raise (TypeError "run() must yield without value"),
        utils.mkRunnable (Some GenReturn))) ∧
  (∃ g, run_yield_then_raise () = Ok g ∧ length (yields g) = 1%nat ∧
     utils.start run_yield_then_raise () stopped
     = (Ok (), utils.mkRunnable (Some (GenRaise (OtherError 0)))) ∧
     utils.stop (utils.mkRunnable (Some (GenRaise (OtherError 0))))
     = (Raise (OtherError 0), stopped)).
Proof. split; eexists; repeat split; reflexivity. Qed.

(** C10: when [run] returns a generator that ends without yielding,
    [start()] raises [TypeError] and leaves the generator in [_running]:
    the instance is running, every later [start()] raises [RuntimeError]
    and changes nothing, no sequence of calls without a [stop()] changes
    the instance, and [stop()] succeeds and leaves it stopped. *)
Theorem failed_start_keeps_running {Args : Type}
    (run : Args → outcome generator) (args : Args) (g : generator)
    (self : utils.Runnable) :
  run args = Ok g → yields g = [] → finish g = None →
  utils.is_running self = false →
  ∃ self1,
    utils.start run args self
    = (Raise (TypeError "run() must yield just one time"), self1) ∧
    utils._running self1 = Some GenReturn ∧
    utils.is_running self1 = true ∧
    (∀ (run' : Args → outcome generator) (args' : Args),
       utils.start run' args' self1
       = (Raise (RuntimeError "Already started"), self1)) ∧
    (∀ (run' : Args → outcome generator) (cs : list (utils.call Args)),
       forallb (λ c, negb (utils.is_stop c)) cs = true →
       utils.do_calls run' cs self1 = self1) ∧
    utils.stop self1 = (Ok (), utils.mkRunnable None).
Proof.
  intros Hrun Hy Hf Hstopped. rewrite (no_yield_shape g Hy Hf) in Hrun.
  exists (utils.mkRunnable (Some GenReturn)).
  split; [|split; [done|split; [done|split; [|split; [|done]]]]].
  - unfold utils.start. by rewrite Hstopped, Hrun.
  - intros run' args'. by apply start_when_running.
  - intros run' cs Hcs. by apply running_until_stop.
Qed.

Lemma failed_start_keeps_running_witness :
  ∃ self1,
    utils.start run_no_yield () stopped
    = (Raise (TypeError "run() must yield just one time"), self1) ∧
    utils._running self1 = Some GenReturn ∧
    utils.is_running self1 = true ∧
    (∀ (run' : unit → outcome generator) (args' : unit),
       utils.start run' args' self1
       = (Raise (RuntimeError "Already started"), self1)) ∧
    (∀ (run' : unit → outcome generator) (cs : list (utils.call unit)),
       forallb (λ c, negb (utils.is_stop c)) cs = true →
       utils.do_calls run' cs self1 = self1) ∧
    utils.stop self1 = (Ok (), utils.mkRunnable None).
Proof.
  exact (failed_start_keeps_running run_no_yield () GenReturn stopped
           eq_refl eq_refl eq_refl eq_refl).
Defined.

(** * Properties of [deferral] *)

Section DeferralFacts.
Context {W Call : Type}.
Variable invoke : Call → W → outcome unit * W.

(** The [finally] block makes the calls of [deferred] from the last to the
    first, and stops at the first that raises. *)
Lemma unwind_invoke_all (deferred : list Call) (w : W) :
  utils.unwind invoke deferred w
  = utils.invoke_all invoke (reverse deferred) w.
Proof.
  unfold utils.unwind. revert w.
  induction deferred as [|c deferred IH] using rev_ind; intros w; [done|].
  rewrite length_app, Nat.add_1_r, reverse_snoc. simpl.
  rewrite last_snoc, removelast_last.
  destruct (invoke c w) as [[[]|e] w']; [apply IH|done].
Qed.

(** What a run of the body registers: everything when it completes, and
    what comes before the raising statement when it raises. *)
Lemma exec_body_registered (body : list (utils.stmt Call))
    (deferred0 : list Call) (w : W) :
  match utils.exec_body invoke body deferred0 w with
  | (Ok _, deferred, _) => deferred = deferred0 ++ utils.defers body
  | (Raise e, deferred, w1) =>
      ∃ pre c post w0,
        body = pre ++ utils.Do c :: post ∧
        utils.exec_body invoke pre deferred0 w = (Ok (), deferred, w0) ∧
        invoke c w0 = (Raise e, w1) ∧
        deferred = deferred0 ++ utils.defers pre
  end.
Proof.
  revert deferred0 w.
  induction body as [|[c|c] body IH]; intros deferred0 w; simpl.
  - by rewrite app_nil_r.
  - specialize (IH (deferred0 ++ [c]) w).
    destruct (utils.exec_body invoke body (deferred0 ++ [c]) w)
      as [[[[]|e] deferred] w1].
    + by rewrite IH, <- app_assoc.
    + destruct IH as (pre & c' & post & w0 & -> & Hpre & Hc & ->).
      exists (utils.Defer c :: pre), c', post, w0. simpl.
      rewrite Hpre. by rewrite <- app_assoc.
  - destruct (invoke c w) as [[[]|e] w'] eqn:Hc.
    + specialize (IH deferred0 w').
      destruct (utils.exec_body invoke body deferred0 w')
        as [[[[]|e] deferred] w1]; [done|].
      destruct IH as (pre & c' & post & w0 & -> & Hpre & Hc' & ->).
      exists (utils.Do c :: pre), c', post, w0. simpl. by rewrite Hc.
    + exists [], c, body, w. simpl. by rewrite app_nil_r.
Qed.

(** Calls that do not raise are all made, in the order of the list, and the
    list of the calls made grows by them. *)
Lemma invoke_all_logged (cs : list Call) (w : W) (log : list Call) :
  (∀ c w', c ∈ cs → raised (fst (invoke c w')) = false) →
  ∃ w2,
    utils.invoke_all invoke cs w = (Ok (), w2) ∧
    utils.invoke_all (utils.logged invoke) cs (w, log)
    = (Ok (), (w2, log ++ cs)).
Proof.
  revert w log. induction cs as [|c cs IH]; intros w log Hok; simpl.
  - exists w. by rewrite app_nil_r.
  - pose proof (Hok c w (list_elem_of_here _ _)) as Hc.
    unfold utils.logged at 1. simpl.
    destruct (invoke c w) as [[[]|e] w'] eqn:Hcw; [|done].
    destruct (IH w' (log ++ [c])) as (w2 & H1 & H2).
    { intros c' w'' Hin. apply Hok. by apply list_elem_of_further. }
    exists w2. by rewrite H1, H2, <- app_assoc.
Qed.

(** Whatever the calls do, the calls made are a prefix of the list. *)
Lemma invoke_all_logged_prefix (cs : list Call) (w : W) (log : list Call) :
  ∃ n, snd (snd (utils.invoke_all (utils.logged invoke) cs (w, log)))
       = log ++ take n cs.
Proof.
  revert w log. induction cs as [|c cs IH]; intros w log; simpl.
  - exists 0%nat. by rewrite app_nil_r.
  - unfold utils.logged at 1. simpl.
    destruct (invoke c w) as [[[]|e] w'] eqn:Hcw.
    + destruct (IH w' (log ++ [c])) as [n Hn]. exists (S n).
      by rewrite Hn, <- app_assoc.
    + by exists 1%nat.
Qed.
(** Calls that return when they are made one after the other are all made,
    in the order of the list, and the list of the calls made grows by
    them. *)
Lemma invoke_all_logged_ok (cs : list Call) (w w2 : W) (log : list Call) :
  utils.invoke_all invoke cs w = (Ok (), w2) →
  utils.invoke_all (utils.logged invoke) cs (w, log)
  = (Ok (), (w2, log ++ cs)).
Proof.
  revert w log. induction cs as [|c cs IH]; intros w log; simpl.
  - intros [= <-]. by rewrite app_nil_r.
  - unfold utils.logged at 1. simpl.
    destruct (invoke c w) as [[[]|e] w'] eqn:Hcw; [|done].
    intros Hrest. by rewrite (IH w' (log ++ [c]) Hrest), <- app_assoc.
Qed.


End DeferralFacts.

(** C2, as the code has it: when none of the registered calls raises as it
    is made on scope exit, that is when the [finally] loop returns, the
    calls made on scope exit are the registered calls, each once, in the
    reverse of the order of registration, and then the scope ends as the
    body did: normally, every [defer] of the body having registered its
    call, or with the error of the body, the calls registered before the
    raising statement having been made. *)
Theorem deferral_reverse_order {W Call : Type}
    (invoke : Call → W → outcome unit * W) (body : list (utils.stmt Call))
    (w : W) (log : list Call) (r : outcome unit) (deferred : list Call)
    (w1 : W) (log1 : list Call) (w2 : W) :
  utils.exec_body (utils.logged invoke) body [] (w, log)
  = (r, deferred, (w1, log1)) →
  utils.unwind invoke deferred w1 = (Ok (), w2) →
  (r = Ok () → deferred = utils.defers body) ∧
  (∀ e, r = Raise e →
     ∃ pre c post, body = pre ++ utils.Do c :: post ∧
                   deferred = utils.defers pre) ∧
  utils.invoke_all invoke (reverse deferred) w1 = (Ok (), w2) ∧
  utils.deferral (utils.logged invoke) body (w, log)
  = (r, (w2, log1 ++ reverse deferred)).
Proof.
  intros Hbody Hunwind.
  pose proof (exec_body_registered (utils.logged invoke) body [] (w, log))
    as Hreg.
  rewrite Hbody in Hreg. rewrite unwind_invoke_all in Hunwind.
  split; [|split; [|split]].
  - intros ->. done.
  - intros e ->. destruct Hreg as (pre & c & post & w0 & -> & _ & _ & ->).
    by exists pre, c, post.
  - done.
  - unfold utils.deferral. rewrite Hbody, unwind_invoke_all.
    by rewrite (invoke_all_logged_ok invoke _ _ _ log1 Hunwind).
Qed.

Lemma deferral_reverse_order_witness :
  utils.invoke_all process.invoke
    (reverse [process.call_signal process.SIG_DFL;
              process.call_setitimer 0 0])
    (process.mkState (process.PyHandler 7) (10, 10) None None None true)
  = (Ok (), process.mkState process.SIG_DFL (0, 0) None None None true) ∧
  utils.deferral (utils.logged process.invoke)
    [utils.Do (process.call_signal (process.PyHandler 7));
     utils.Defer (process.call_signal process.SIG_DFL);
     utils.Do (process.call_setitimer 10 10);
     utils.Defer (process.call_setitimer 0 0)]
    (process.mkState process.SIG_DFL (0, 0) None None None true, [])
  = (Ok (),
     (process.mkState process.SIG_DFL (0, 0) None None None true,
      [process.call_signal (process.PyHandler 7);
       process.call_setitimer 10 10]
      ++ reverse [process.call_signal process.SIG_DFL;
                  process.call_setitimer 0 0])).
Proof.
  destruct (deferral_reverse_order process.invoke
              [utils.Do (process.call_signal (process.PyHandler 7));
               utils.Defer (process.call_signal process.SIG_DFL);
               utils.Do (process.call_setitimer 10 10);
               utils.Defer (process.call_setitimer 0 0)]
              (process.mkState process.SIG_DFL (0, 0) None None None true) []
              (Ok ())
              [process.call_signal process.SIG_DFL;
               process.call_setitimer 0 0]
              (process.mkState (process.PyHandler 7) (10, 10) None None None
                 true)
              [process.call_signal (process.PyHandler 7);
               process.call_setitimer 10 10]
              (process.mkState process.SIG_DFL (0, 0) None None None true))
    as (_ & _ & Hcalls & Hscope).
  - vm_compute. reflexivity.
  - vm_compute. reflexivity.
  - split; [exact Hcalls|exact Hscope].
Defined.

(** C2, as the claim has it, fails: of two registered calls the one
    registered last raises when the scope ends, and the one registered
    first is never made. *)
Lemma raising_deferred_call_skips_rest :
  utils.registered (utils.logged invoke_add_fail)
    [utils.Defer 7; utils.Defer 1] (0, []) = [7; 1] ∧
  utils.deferral (utils.logged invoke_add_fail)
    [utils.Defer 7; utils.Defer 1] (0, [])
  = (Raise (OtherError 1), (0, [1])) ∧
  snd (snd (utils.deferral (utils.logged invoke_add_fail)
              [utils.Defer 7; utils.Defer 1] (0, []))) ≠ reverse [7; 1].
Proof. repeat split; [reflexivity..|discriminate]. Qed.

(** * Properties of [ContextualTimer] *)

Section TimerFacts.
Variable detect_context : outcome (option Z).

Lemma elapsed_of_entry (clock : Z) (ctx : Z) (self : timers.ContextualTimer) :
  timers.__call__ detect_context clock (Some ctx) self
  = Ok (match timers.times_get self (Some ctx) with
        | (paused_at, None) => paused_at
        | (paused_at, Some resumed_at) => paused_at + clock - resumed_at
        end).
Proof.
  unfold timers.__call__. simpl.
  by destruct (timers.times_get self (Some ctx)) as [paused_at [resumed_at|]].
Qed.

Lemma pause_entry (clock : Z) (ctx : Z) (self : timers.ContextualTimer) :
  ∃ elapsed,
    timers.__call__ detect_context clock (Some ctx) self = Ok elapsed ∧
    timers.pause detect_context clock (Some ctx) self
    = (Ok (), timers.mkContextualTimer
                (<[Some ctx := (elapsed, None)]>
                   (timers._contextual_times self))).
Proof.
  unfold timers.pause. simpl. rewrite elapsed_of_entry. eauto.
Qed.

Lemma resume_entry (clock : Z) (ctx : Z) (self : timers.ContextualTimer) :
  timers.resume detect_context clock (Some ctx) self
  = (Ok (), timers.mkContextualTimer
              (<[Some ctx := ((timers.times_get self (Some ctx)).1,
                              Some clock)]>
                 (timers._contextual_times self))).
Proof.
  unfold timers.resume. simpl.
  by destruct (timers.times_get self (Some ctx)).
Qed.

(** A call that is not a [pause] or a [resume] of [ctx] leaves the entry of
    [ctx] as it is. *)
Lemma do_call_other (ctx : Z) (c : timers.op)
    (self : timers.ContextualTimer) :
  timers.pauses_or_resumes detect_context ctx c = false →
  timers._contextual_times (timers.timer_call detect_context c self) !! Some ctx
  = timers._contextual_times self !! Some ctx.
Proof.
  destruct c as [clock context|clock context|clock context]; simpl; [done|..].
  - unfold timers.pause.
    destruct (timers.context_or_detect detect_context context)
      as [[k|]|e] eqn:Hk; simpl; [|..|done].
    + intros Hne%bool_decide_eq_false.
      destruct (timers.__call__ detect_context clock (Some k) self);
        simpl; [|done].
      rewrite lookup_insert_ne; [done|congruence].
    + intros _.
      destruct (timers.__call__ detect_context clock None self);
        simpl; [|done].
      by rewrite lookup_insert_ne.
  - unfold timers.resume.
    destruct (timers.context_or_detect detect_context context)
      as [[k|]|e] eqn:Hk; simpl; [|..|done].
    + intros Hne%bool_decide_eq_false.
      destruct (timers.times_get self (Some k)). simpl.
      rewrite lookup_insert_ne; [done|congruence].
    + intros _. destruct (timers.times_get self None). simpl.
      by rewrite lookup_insert_ne.
Qed.

Lemma do_calls_other (ctx : Z) (cs : list timers.op)
    (self : timers.ContextualTimer) :
  forallb (λ c, negb (timers.pauses_or_resumes detect_context ctx c)) cs
  = true →
  timers._contextual_times (timers.timer_calls detect_context cs self) !! Some ctx
  = timers._contextual_times self !! Some ctx.
Proof.
  unfold timers.timer_calls. revert self.
  induction cs as [|c cs IH]; intros self; simpl; [done|].
  intros [Hc%negb_true_iff Hcs]%andb_prop.
  rewrite IH by done. by apply do_call_other.
Qed.
End TimerFacts.

(** C3, as the code has it: for a timer on which [pause] and [resume] were
    never called for the context [ctx], whatever else was called, the
    elapsed time of [ctx] is the reading of the clock: the context counts as
    running since the clock read 0.  It is 0 when the clock reads 0. *)
Theorem untouched_context_reads_clock (detect_context : outcome (option Z))
    (cs : list timers.op) (ctx : Z) (clock : Z) :
  forallb (λ c, negb (timers.pauses_or_resumes detect_context ctx c)) cs
  = true →
  timers.__call__ detect_context clock (Some ctx)
    (timers.timer_calls detect_context cs timers.__new__)
  = Ok clock.
Proof.
  intros Hcs. rewrite elapsed_of_entry. unfold timers.times_get.
  rewrite do_calls_other by done. simpl. rewrite lookup_empty. simpl.
  f_equal. lia.
Qed.

Lemma untouched_context_reads_clock_witness :
  timers.__call__ timers.detect_context 25 (Some 2)
    (timers.timer_calls timers.detect_context
       [timers.CallResume 10 (Some 1); timers.CallPause 20 (Some 1)]
       timers.__new__)
  = Ok 25.
Proof.
  exact (untouched_context_reads_clock timers.detect_context
           [timers.CallResume 10 (Some 1); timers.CallPause 20 (Some 1)]
           2 25 eq_refl).
Defined.

(** C3, as the claim has it, fails: on a new timer, the clock reading 5, the
    elapsed time of a context never paused or resumed is 5, not 0. *)
Lemma untouched_context_not_zero :
  timers.__call__ timers.detect_context 5 (Some 7) timers.__new__ = Ok 5 ∧
  timers.__call__ timers.detect_context 5 (Some 7) timers.__new__ ≠ Ok 0.
Proof. split; [reflexivity|discriminate]. Qed.

(** C4: for a context with the entry [(accumulated, resumed_at)], the
    elapsed time is [accumulated] when [resumed_at] is [None] and
    [accumulated + (clock - resumed_at)] otherwise; [pause] replaces the
    entry by the elapsed time and [None]; [resume] replaces it by
    [accumulated] and the reading of the clock; both leave the other
    entries as they are. *)
Theorem contextual_timer_entry (detect_context : outcome (option Z))
    (clock : Z) (ctx : Z) (self : timers.ContextualTimer)
    (accumulated : Z) (resumed_at : option Z) :
  timers._contextual_times self !! Some ctx = Some (accumulated, resumed_at) →
  let elapsed :=
    match resumed_at with
    | None => accumulated
    | Some resumed_at => accumulated + (clock - resumed_at)
    end in
  timers.__call__ detect_context clock (Some ctx) self = Ok elapsed ∧
  timers.pause detect_context clock (Some ctx) self
  = (Ok (), timers.mkContextualTimer
              (<[Some ctx := (elapsed, None)]>
                 (timers._contextual_times self))) ∧
  timers.resume detect_context clock (Some ctx) self
  = (Ok (), timers.mkContextualTimer
              (<[Some ctx := (accumulated, Some clock)]>
                 (timers._contextual_times self))).
Proof.
  intros Hentry elapsed.
  assert (timers.times_get self (Some ctx) = (accumulated, resumed_at)) as Hget
    by (unfold timers.times_get; by rewrite Hentry).
  assert (timers.__call__ detect_context clock (Some ctx) self = Ok elapsed)
    as Hcall.
  { rewrite elapsed_of_entry, Hget. subst elapsed.
    destruct resumed_at; f_equal; lia. }
  split; [done|split].
  - destruct (pause_entry detect_context clock ctx self) as (e & He & ->).
    congruence.
  - by rewrite resume_entry, Hget.
Qed.

Lemma contextual_timer_entry_witness :
  timers.__call__ timers.detect_context 30 (Some 1)
    (timers.mkContextualTimer {[Some 1 := (4, Some 10)]})
  = Ok (4 + (30 - 10)) ∧
  timers.pause timers.detect_context 30 (Some 1)
    (timers.mkContextualTimer {[Some 1 := (4, Some 10)]})
  = (Ok (), timers.mkContextualTimer
              (<[Some 1 := (4 + (30 - 10), None)]>
                 {[Some 1 := (4, Some 10)]})) ∧
  timers.resume timers.detect_context 30 (Some 1)
    (timers.mkContextualTimer {[Some 1 := (4, Some 10)]})
  = (Ok (), timers.mkContextualTimer
              (<[Some 1 := (4, Some 30)]> {[Some 1 := (4, Some 10)]})).
Proof.
  exact (contextual_timer_entry timers.detect_context 30 1
           (timers.mkContextualTimer {[Some 1 := (4, Some 10)]})
           4 (Some 10) eq_refl).
Defined.

(** C5: [pause(ctx)] at an elapsed time [E], then [resume(ctx)], then a
    clock that is [delta] further than at the [resume]: the elapsed time of
    [ctx] is [E + delta]. *)
Theorem pause_resume_elapsed (detect_context : outcome (option Z))
    (t_pause t_resume delta : Z) (ctx : Z) (self : timers.ContextualTimer) :
  ∃ E self1 self2,
    timers.__call__ detect_context t_pause (Some ctx) self = Ok E ∧
    timers.pause detect_context t_pause (Some ctx) self = (Ok (), self1) ∧
    timers.resume detect_context t_resume (Some ctx) self1 = (Ok (), self2) ∧
    timers.__call__ detect_context (t_resume + delta) (Some ctx) self2
    = Ok (E + delta).
Proof.
  destruct (pause_entry detect_context t_pause ctx self) as (E & HE & Hpause).
  eexists E, _, _. split; [done|split; [done|]].
  rewrite resume_entry. split; [done|].
  rewrite elapsed_of_entry. unfold timers.times_get. simpl.
  rewrite !lookup_insert_eq. simpl. f_equal. lia.
Qed.

(** The switch of fibers [resume(A); pause(A); resume(B)] under a clock
    that advances by 10 at each step: [A] has run for 10 and [B] for 0. *)
Example fiber_switch :
  let timer :=
    timers.timer_calls timers.detect_context
      [timers.CallResume 10 (Some 1); timers.CallPause 20 (Some 1);
       timers.CallResume 30 (Some 2)] timers.__new__ in
  timers.__call__ timers.detect_context 30 (Some 1) timer = Ok 10 ∧
  timers.__call__ timers.detect_context 30 (Some 2) timer = Ok 0.
Proof. split; vm_compute; reflexivity. Qed.

(** * Properties of [frame_stack] *)

(** Induction along [f_back]. *)
Lemma frame_back_ind (P : frame → Prop) :
  (∀ fr, (∀ back, f_back fr = Some back → P back) → P fr) → ∀ fr, P fr.
Proof.
  intros step. fix IH 1. intros [id code back]. apply step. simpl.
  destruct back as [b|]; intros b' Hb; [|discriminate Hb].
  injection Hb as <-. apply IH.
Qed.

Lemma chain_unfold (fr : frame) :
  utils.chain fr
  = fr :: match f_back fr with
          | None => []
          | Some back => utils.chain back
          end.
Proof. by destruct fr. Qed.

Lemma frame_stack_loop_unfold (fr : frame) (base_frame : option frame)
    (ignoring_codes : gset Z) (frames : list frame) :
  utils.frame_stack_loop fr base_frame ignoring_codes frames
  = if is_base fr base_frame then frames
    else
      let frames' :=
        if bool_decide (f_code fr ∈ ignoring_codes) then frames
        else fr :: frames in
      match f_back fr with
      | None => frames'
      | Some back =>
          utils.frame_stack_loop back base_frame ignoring_codes frames'
      end.
Proof. by destruct fr. Qed.

(** The loop puts in front of the deque, oldest first, the frames of the
    chain that come before the base frame and whose code is not ignored. *)
Lemma frame_stack_loop_spec (base_frame : option frame)
    (ignoring_codes : gset Z) (fr : frame) (frames : list frame) :
  utils.frame_stack_loop fr base_frame ignoring_codes frames
  = reverse (filter (λ f, f_code f ∉ ignoring_codes)
               (utils.before_base base_frame (utils.chain fr))) ++ frames.
Proof.
  revert frames. induction fr as [fr IH] using frame_back_ind. intros frames.
  rewrite frame_stack_loop_unfold, chain_unfold. simpl.
  destruct (is_base fr base_frame); [done|]. simpl.
  assert (∀ rest,
    reverse (filter (λ f, f_code f ∉ ignoring_codes) (fr :: rest)) ++ frames
    = reverse (filter (λ f, f_code f ∉ ignoring_codes) rest)
      ++ (if bool_decide (f_code fr ∈ ignoring_codes) then frames
          else fr :: frames)) as Hstep.
  { intros rest. case_bool_decide as Hin.
    - rewrite filter_cons_False; [done|]. by intros [].
    - rewrite filter_cons_True by done.
      by rewrite reverse_cons, <- app_assoc. }
  rewrite Hstep. destruct (f_back fr) as [back|]; [|done].
  by rewrite (IH back).
Qed.

Lemma before_base_None (frames : list frame) :
  utils.before_base None frames = frames.
Proof. induction frames; simpl; congruence. Qed.

(** With distinct identities, the frames before the one at position [k] are
    the first [k] frames. *)
Lemma before_base_take (frames : list frame) (k : nat) (b : frame) :
  frames !! k = Some b → NoDup (f_id <$> frames) →
  utils.before_base (Some b) frames = take k frames.
Proof.
  revert k. induction frames as [|fr frames IH]; intros k; [done|].
  rewrite fmap_cons, NoDup_cons. intros Hk [Hfr Hnd].
  destruct k as [|k]; simpl in *.
  - injection Hk as ->. unfold frame_is. by rewrite bool_decide_eq_true_2.
  - unfold frame_is. rewrite bool_decide_eq_false_2.
    + by rewrite (IH k).
    + intros Heq. apply Hfr. rewrite Heq.
      apply list_elem_of_fmap_2. by eapply list_elem_of_lookup_2.
Qed.

Lemma filter_nothing_ignored (ignoring_codes : gset Z) (frames : list frame) :
  ignoring_codes = ∅ →
  filter (λ f, f_code f ∉ ignoring_codes) frames = frames.
Proof.
  intros ->. induction frames as [|fr frames IH]; [done|].
  rewrite filter_cons_True by set_solver. by rewrite IH.
Qed.

(** C6: the walk from the innermost frame [fr] returns, oldest first, the
    frames of the caller chain that come before the base frame and whose
    code is not ignored: the whole chain when there is no base frame, and,
    when the base frame is the frame [k] positions above [fr], the first
    [k] frames of the chain without the ignored ones; with nothing ignored
    these are [k] frames. *)
Theorem frame_stack_walk (fr : frame) (k : nat) (b : frame) :
  utils.chain fr !! k = Some b → NoDup (f_id <$> utils.chain fr) →
  (∀ base_frame ignoring_codes,
     utils.frame_stack (Some fr) base_frame ignoring_codes
     = reverse (filter (λ f, f_code f ∉ ignoring_codes)
                  (utils.before_base base_frame (utils.chain fr)))) ∧
  (∀ ignoring_codes,
     utils.frame_stack (Some fr) None ignoring_codes
     = reverse (filter (λ f, f_code f ∉ ignoring_codes) (utils.chain fr))) ∧
  (∀ ignoring_codes,
     utils.frame_stack (Some fr) (Some b) ignoring_codes
     = reverse (filter (λ f, f_code f ∉ ignoring_codes)
                  (take k (utils.chain fr)))) ∧
  utils.frame_stack (Some fr) (Some b) ∅ = reverse (take k (utils.chain fr)) ∧
  length (utils.frame_stack (Some fr) (Some b) ∅) = k.
Proof.
  intros Hk Hnd.
  assert (∀ base_frame ignoring_codes,
     utils.frame_stack (Some fr) base_frame ignoring_codes
     = reverse (filter (λ f, f_code f ∉ ignoring_codes)
                  (utils.before_base base_frame (utils.chain fr)))) as Hwalk.
  { intros base_frame ignoring_codes. simpl.
    by rewrite frame_stack_loop_spec, app_nil_r. }
  assert (utils.frame_stack (Some fr) (Some b) ∅
          = reverse (take k (utils.chain fr))) as Hall.
  { rewrite Hwalk, (before_base_take _ k) by done.
    f_equal. by apply filter_nothing_ignored. }
  split; [done|split; [|split; [|split; [done|]]]].
  - intros ignoring_codes. by rewrite Hwalk, before_base_None.
  - intros ignoring_codes. by rewrite Hwalk, (before_base_take _ k).
  - rewrite Hall, length_reverse. apply length_take_le.
    apply lookup_lt_Some in Hk. lia.
Qed.

Lemma frame_stack_walk_witness :
  utils.frame_stack (Some frame_c) (Some frame_a) {[2]} = [frame_c] ∧
  utils.frame_stack (Some frame_c) (Some frame_a) ∅ = [frame_b; frame_c] ∧
  length (utils.frame_stack (Some frame_c) (Some frame_a) ∅) = 2%nat.
Proof.
  assert (NoDup (f_id <$> utils.chain frame_c)) as Hnd.
  { apply (bool_decide_unpack (NoDup (f_id <$> utils.chain frame_c))).
    vm_compute. exact I. }
  destruct (frame_stack_walk frame_c 2 frame_a eq_refl Hnd)
    as (_ & _ & Hign & Hall & Hlen).
  split; [|split; [exact Hall|exact Hlen]].
  rewrite Hign. vm_compute. reflexivity.
Defined.

(** * Properties of [Profiler.result] *)

(** C7: [result] returns, and leaves the instance as it is; both elapsed
    times are at least 0, whatever the clocks read; on an instance that
    [start] was never called on, a new one or any that lacks an attribute
    that [start] sets, they are 0; once [start] was called, at the readings
    [c0] and [t0] of the two clocks, they are [max(0, clock - c0)] and
    [max(0, time - t0)]. *)
Theorem result_never_raises {Stats : Type} (clear : Stats → Stats)
    (clock time : Z) (self : profiler.Profiler Stats) :
  (∃ cpu_time wall_time,
     profiler.result clock time self
     = (Ok (profiler.stats self, cpu_time, wall_time), self) ∧
     0 ≤ cpu_time ∧ 0 ≤ wall_time) ∧
  (∀ (new_stats : Stats) base_frame ignoring_codes,
     profiler.result clock time
       (profiler.__init__ new_stats base_frame ignoring_codes)
     = (Ok (new_stats, 0, 0),
        profiler.__init__ new_stats base_frame ignoring_codes)) ∧
  (profiler._cpu_time_started self = None ∨
   profiler._wall_time_started self = None →
     profiler.result clock time self
     = (Ok (profiler.stats self, 0, 0), self)) ∧
  (∀ run c0 t0,
     profiler.result clock time (snd (profiler.start clear run c0 t0 self))
     = (Ok (profiler.stats (snd (profiler.start clear run c0 t0 self)),
            Z.max 0 (clock - c0), Z.max 0 (time - t0)),
        snd (profiler.start clear run c0 t0 self))).
Proof.
  split; [|split; [|split]].
  - unfold profiler.result.
    destruct (profiler._cpu_time_started self) as [c0|],
      (profiler._wall_time_started self) as [t0|]; simpl;
      eexists _, _; (split; [reflexivity|lia]).
  - done.
  - unfold profiler.result.
    destruct (profiler._cpu_time_started self) as [c0|],
      (profiler._wall_time_started self) as [t0|]; simpl;
      intros [?|?]; done.
  - intros run c0 t0. unfold profiler.start. simpl.
    by destruct (utils.start run () (profiler.runnable self)).
Qed.

Lemma result_never_raises_witness :
  profiler.result 7 9 (profiler.mkProfiler () None ∅ (Some 3) None stopped)
  = (Ok ((), 0, 0), profiler.mkProfiler () None ∅ (Some 3) None stopped) ∧
  profiler.result 2 9
    (snd (profiler.start id run_canonical 5 4
            (profiler.__init__ () None ∅)))
  = (Ok ((), 0, 5),
     snd (profiler.start id run_canonical 5 4 (profiler.__init__ () None ∅))).
Proof.
  split.
  - apply (result_never_raises id 7 9
             (profiler.mkProfiler () None ∅ (Some 3) None stopped)).
    right. reflexivity.
  - apply (result_never_raises id 2 9 (profiler.__init__ () None ∅)).
Defined.

(** * Properties of the samplers *)

(** The loop over [frames.values()] gives [sample] one frame for each key
    of the dictionary. *)
Lemma sample_values_once {P : Type} (sample : frame → P → P)
    (frames : gmap Z frame) (profiler : P) :
  ∃ entries : list (Z * frame),
    NoDup entries.*1 ∧
    (∀ tid f, (tid, f) ∈ entries ↔ frames !! tid = Some f) ∧
    length entries = size frames ∧
    samplers.sample_values sample frames profiler
    = foldl (λ p f, sample f p) profiler entries.*2.
Proof.
  exists (map_to_list frames). split; [apply NoDup_fst_map_to_list|].
  split; [intros tid f; apply elem_of_map_to_list|].
  split; [apply length_map_to_list|done].
Qed.

(** C8: when the clock reads less than [interval] past [sampled_at], the
    callback returns at once: [sampled_at] and the profiler are as before,
    whatever [sample] is.  Otherwise [sampled_at] becomes the reading of the
    clock and [sample] is called once for each thread of the dictionary
    [current_frames()] in which the entry of the calling thread is the frame
    of the event. *)
Theorem tracing_profile_throttle {P : Type} (sample : frame → P → P)
    (self : samplers.TracingSampler) (clock : Z)
    (current_frames : gmap Z frame) (get_ident : Z) (profiler : P)
    (fr : frame) (event arg : pyval) :
  (clock - samplers.sampled_at self < samplers.interval self →
     samplers._profile sample self clock current_frames get_ident profiler
       fr event arg
     = (self, profiler)) ∧
  (samplers.interval self ≤ clock - samplers.sampled_at self →
     ∃ entries : list (Z * frame),
       NoDup entries.*1 ∧
       (∀ tid f, (tid, f) ∈ entries
                 ↔ <[get_ident := fr]> current_frames !! tid = Some f) ∧
       (get_ident, fr) ∈ entries ∧
       (∀ tid f, tid ≠ get_ident →
                 (tid, f) ∈ entries ↔ current_frames !! tid = Some f) ∧
       samplers._profile sample self clock current_frames get_ident profiler
         fr event arg
       = (samplers.mkTracingSampler (samplers.interval self) clock,
          foldl (λ p f, sample f p) profiler entries.*2)).
Proof.
  unfold samplers._profile. split; intros Ht.
  - by rewrite bool_decide_eq_true_2.
  - rewrite bool_decide_eq_false_2 by lia.
    destruct (sample_values_once sample (<[get_ident := fr]> current_frames)
                profiler) as (entries & Hnd & Hin & _ & ->).
    exists entries. split; [done|split; [done|split; [|split; [|done]]]].
    + apply Hin, lookup_insert_eq.
    + intros tid f Hne. by rewrite Hin, lookup_insert_ne.
Qed.

Lemma tracing_profile_throttle_witness :
  samplers._profile samplers.record_sample (samplers.mkTracingSampler 10 100)
    105 two_threads 1 [] frame_c PyNone PyNone
  = (samplers.mkTracingSampler 10 100, []) ∧
  ∃ entries : list (Z * frame),
    NoDup entries.*1 ∧
    (∀ tid f, (tid, f) ∈ entries
              ↔ <[1 := frame_c]> two_threads !! tid = Some f) ∧
    (1, frame_c) ∈ entries ∧
    (∀ tid f, tid ≠ 1 → (tid, f) ∈ entries ↔ two_threads !! tid = Some f) ∧
    samplers._profile samplers.record_sample
      (samplers.mkTracingSampler 10 100) 110 two_threads 1 [] frame_c
      PyNone PyNone
    = (samplers.mkTracingSampler 10 110,
       foldl (λ p f, samplers.record_sample f p) [] entries.*2).
Proof.
  split.
  - apply (tracing_profile_throttle samplers.record_sample
             (samplers.mkTracingSampler 10 100) 105 two_threads 1 []
             frame_c PyNone PyNone).
    simpl. lia.
  - apply (tracing_profile_throttle samplers.record_sample
             (samplers.mkTracingSampler 10 100) 110 two_threads 1 []
             frame_c PyNone PyNone).
    simpl. lia.
Defined.

(** C9: the handler calls [sample] once for each thread of the dictionary
    [current_frames()] in which the entry of [main_thread_id] is the
    interrupted frame; when the main thread is among the live threads this
    is one call for each live thread. *)
Theorem itimer_handle_signal {P : Type} (sample : frame → P → P)
    (self : samplers.ItimerSampler) (current_frames : gmap Z frame)
    (profiler : P) (signum : Z) (fr : frame) :
  ∃ entries : list (Z * frame),
    NoDup entries.*1 ∧
    (∀ tid f, (tid, f) ∈ entries
              ↔ <[samplers.main_thread_id self := fr]> current_frames !! tid
                = Some f) ∧
    (samplers.main_thread_id self, fr) ∈ entries ∧
    (∀ tid f, tid ≠ samplers.main_thread_id self →
              (tid, f) ∈ entries ↔ current_frames !! tid = Some f) ∧
    samplers.handle_signal sample self current_frames profiler signum fr
    = foldl (λ p f, sample f p) profiler entries.*2 ∧
    (is_Some (current_frames !! samplers.main_thread_id self) →
       entries.*1 ≡ₚ elements (dom current_frames) ∧
       length entries = size current_frames).
Proof.
  unfold samplers.handle_signal.
  destruct (sample_values_once sample
              (<[samplers.main_thread_id self := fr]> current_frames)
              profiler) as (entries & Hnd & Hin & Hlen & ->).
  exists entries.
  split; [done|split; [done|split; [|split; [|split; [done|]]]]].
  - apply Hin, lookup_insert_eq.
  - intros tid f Hne. by rewrite Hin, lookup_insert_ne.
  - intros [f0 Hmain]. split.
    + apply NoDup_Permutation; [done|apply NoDup_elements|].
      intros tid. rewrite elem_of_elements, elem_of_dom, list_elem_of_fmap.
      split.
      * intros ([tid' f] & -> & Hentry). apply Hin in Hentry. simpl.
        destruct (decide (samplers.main_thread_id self = tid')) as [<-|Hne].
        -- by exists f0.
        -- rewrite lookup_insert_ne in Hentry by done. by exists f.
      * intros [f Hf].
        destruct (decide (samplers.main_thread_id self = tid)) as [<-|Hne].
        -- exists (samplers.main_thread_id self, fr). split; [done|].
           apply Hin, lookup_insert_eq.
        -- exists (tid, f). split; [done|].
           apply Hin. by rewrite lookup_insert_ne.
    + rewrite Hlen. by eapply map_size_insert_Some.
Qed.

Lemma itimer_handle_signal_witness :
  ∃ entries : list (Z * frame),
    (1, frame_c) ∈ entries ∧
    samplers.handle_signal samplers.record_sample
      (samplers.mkItimerSampler 10 1) two_threads [] 27 frame_c
    = foldl (λ p f, samplers.record_sample f p) [] entries.*2 ∧
    length entries = size two_threads.
Proof.
  destruct (itimer_handle_signal samplers.record_sample
              (samplers.mkItimerSampler 10 1) two_threads [] 27 frame_c)
    as (entries & _ & _ & Hmain & _ & Hcalls & Hlive).
  exists entries. split; [exact Hmain|split; [exact Hcalls|]].
  apply Hlive. exists frame_a. reflexivity.
Defined.

(** * Further properties of [Runnable] *)

(** X1: [stop()] on a running instance leaves it stopped whatever happens:
    it returns when the generator ends at its next step, raises [TypeError]
    when the generator yields again, and in every case a second [stop()]
    raises [RuntimeError]. *)
Theorem stop_running_instance (g : generator) :
  utils.is_running (snd (utils.stop (utils.mkRunnable (Some g)))) = false ∧
  (fst (utils.stop (utils.mkRunnable (Some g))) = Ok ()
   ↔ fst (next g) = Raise StopIteration) ∧
  (∀ v, fst (next g) = Ok v →
        fst (utils.stop (utils.mkRunnable (Some g)))
        = Raise (TypeError "run() must yield just one time")) ∧
  utils.stop (snd (utils.stop (utils.mkRunnable (Some g))))
  = (Raise (RuntimeError "Not started"), utils.mkRunnable None).
Proof.
  unfold utils.stop. simpl.
  destruct (fst (next g)) as [v|e] eqn:Hnext.
  - split; [done|]. split; [by split|]. split; [by intros v' _|done].
  - split; [by destruct e|]. split; [destruct e; by split|].
    split; [by intros v' ?|by destruct e].
Qed.

(** X2: [start()] on a stopped instance leaves it running exactly when the
    call of [run] returned a generator, whether [start()] then raised or
    not; when the call of [run] raises, [start()] raises the same error and
    the instance is as before. *)
Theorem start_running_iff_generator {Args : Type}
    (run : Args → outcome generator) (args : Args) (self : utils.Runnable) :
  utils.is_running self = false →
  (∀ g, run args = Ok g →
        utils._running (snd (utils.start run args self))
        = Some (snd (next g))) ∧
  (∀ e, run args = Raise e → utils.start run args self = (Raise e, self)) ∧
  (utils.is_running (snd (utils.start run args self)) = true
   ↔ ∃ g, run args = Ok g).
Proof.
  intros Hstopped. unfold utils.start. rewrite Hstopped.
  destruct (run args) as [g|e] eqn:Hrun.
  - assert (∀ r : outcome unit * utils.Runnable,
              utils._running r.2 = Some (next g).2 →
              (∀ g0, Ok g = Ok g0 → utils._running r.2 = Some (next g0).2) ∧
              (∀ e, Ok g = Raise e → r = (Raise e, self)) ∧
              (utils.is_running r.2 = true ↔ ∃ g0, Ok g = Ok g0)) as Hgen.
    { intros r Hr. split; [by intros g0 [= <-]|split; [done|]].
      unfold utils.is_running. rewrite Hr. split; eauto. }
    destruct (next g) as [[v|e] g'] eqn:Hn; simpl.
    + destruct (is_not_None v); by apply Hgen.
    + destruct e; by apply Hgen.
  - split; [done|split].
    + by intros e0 [= <-].
    + simpl. rewrite Hstopped. split; [done|]. by intros [g ?].
Qed.

Lemma start_running_iff_generator_witness :
  utils.start (utils.run (Args := unit)) () stopped
  = (Raise (NotImplementedError "Implement run()"),
     utils.mkRunnable (Some GenReturn)) ∧
  utils.is_running (snd (utils.start (utils.run (Args := unit)) () stopped))
  = true.
Proof.
  split; [reflexivity|].
  apply (start_running_iff_generator utils.run () stopped eq_refl).
  by eexists.
Defined.

(** X3: with a [run] whose generator yields [None] once and then returns,
    [start(); stop()] can be repeated any number of times: every call
    returns and the instance ends stopped. *)
Theorem start_stop_repeats {Args : Type} (run : Args → outcome generator)
    (args : Args) (n : nat) (self : utils.Runnable) :
  run args = Ok (GenYield PyNone GenReturn) →
  utils.is_running self = false →
  start_stop_cycles run args n self
  = (Ok (), match n with O => self | S _ => utils.mkRunnable None end).
Proof.
  intros Hrun. revert self. induction n as [|n IH]; intros self Hstopped.
  - done.
  - simpl. unfold utils.start. rewrite Hstopped, Hrun. simpl.
    rewrite (IH (utils.mkRunnable None)) by done. by destruct n.
Qed.

Lemma start_stop_repeats_witness :
  start_stop_cycles (Timer.run (Profiler := unit)) () 3 stopped
  = (Ok (), utils.mkRunnable None).
Proof.
  exact (start_stop_repeats Timer.run () 3 stopped eq_refl eq_refl).
Defined.

(** * Further properties of [frame_stack] *)

Lemma before_base_elem (base_frame : option frame) (frames : list frame)
    (f : frame) :
  f ∈ utils.before_base base_frame frames →
  f ∈ frames ∧ is_base f base_frame = false.
Proof.
  induction frames as [|fr frames IH]; simpl; [by intros ?%elem_of_nil|].
  destruct (is_base fr base_frame) eqn:Hbase; [by intros ?%elem_of_nil|].
  intros [->|Hin]%elem_of_cons.
  - split; [apply list_elem_of_here|done].
  - destruct (IH Hin). split; [by apply list_elem_of_further|done].
Qed.

Lemma before_base_length (base_frame : option frame) (frames : list frame) :
  (length (utils.before_base base_frame frames) ≤ length frames)%nat.
Proof.
  induction frames as [|fr frames IH]; simpl; [done|].
  destruct (is_base fr base_frame); simpl; lia.
Qed.

Lemma frame_stack_spec (fr : frame) (base_frame : option frame)
    (ignoring_codes : gset Z) :
  utils.frame_stack (Some fr) base_frame ignoring_codes
  = reverse (filter (λ f, f_code f ∉ ignoring_codes)
               (utils.before_base base_frame (utils.chain fr))).
Proof. simpl. by rewrite frame_stack_loop_spec, app_nil_r. Qed.

(** X4: every frame [frame_stack] returns is a frame of the caller chain,
    its code is not ignored and it is not the base frame; the result is
    never longer than the chain. *)
Theorem frame_stack_sound (fr : frame) (base_frame : option frame)
    (ignoring_codes : gset Z) :
  (∀ f, f ∈ utils.frame_stack (Some fr) base_frame ignoring_codes →
        f ∈ utils.chain fr ∧ (f_code f ∉ ignoring_codes) ∧
        is_base f base_frame = false) ∧
  (length (utils.frame_stack (Some fr) base_frame ignoring_codes)
   ≤ length (utils.chain fr))%nat.
Proof.
  rewrite frame_stack_spec. split.
  - intros f [Hcode Hin]%elem_of_reverse%list_elem_of_filter.
    apply before_base_elem in Hin as [Hin Hbase]. done.
  - rewrite length_reverse.
    etransitivity; [apply length_filter|apply before_base_length].
Qed.

(** X5: the stack of a frame that is not the base frame is the stack of its
    caller followed by the frame itself, or the stack of its caller alone
    when the code of the frame is ignored. *)
Theorem frame_stack_extends_caller (fr : frame) (base_frame : option frame)
    (ignoring_codes : gset Z) :
  is_base fr base_frame = false →
  utils.frame_stack (Some fr) base_frame ignoring_codes
  = utils.frame_stack (f_back fr) base_frame ignoring_codes
    ++ (if bool_decide (f_code fr ∈ ignoring_codes) then [] else [fr]).
Proof.
  intros Hbase. rewrite frame_stack_spec, chain_unfold. simpl.
  rewrite Hbase.
  assert (∀ rest,
    reverse (filter (λ f, f_code f ∉ ignoring_codes) (fr :: rest))
    = reverse (filter (λ f, f_code f ∉ ignoring_codes) rest)
      ++ (if bool_decide (f_code fr ∈ ignoring_codes) then [] else [fr]))
    as Hstep.
  { intros rest. case_bool_decide as Hin.
    - rewrite filter_cons_False; [by rewrite app_nil_r|]. by intros [].
    - by rewrite filter_cons_True, reverse_cons by done. }
  rewrite Hstep. destruct (f_back fr) as [back|].
  - by rewrite frame_stack_spec.
  - done.
Qed.

Lemma frame_stack_extends_caller_witness :
  utils.frame_stack (Some frame_c) (Some frame_a) {[2]}
  = utils.frame_stack (Some frame_b) (Some frame_a) {[2]} ++ [frame_c].
Proof.
  exact (frame_stack_extends_caller frame_c (Some frame_a) {[2]} eq_refl).
Defined.

(** X6: ignoring more codes only removes frames: the stack with the codes
    of two sets ignored is the stack with the codes of the first ignored,
    without the frames whose code is in the second. *)
Theorem frame_stack_ignore_more (fr : option frame)
    (base_frame : option frame) (ignoring_codes more : gset Z) :
  utils.frame_stack fr base_frame (ignoring_codes ∪ more)
  = filter (λ f, f_code f ∉ more)
      (utils.frame_stack fr base_frame ignoring_codes).
Proof.
  destruct fr as [fr|]; [|done].
  rewrite !frame_stack_spec, filter_reverse, list_filter_filter.
  f_equal. apply list_filter_iff. intros f.
  rewrite not_elem_of_union. tauto.
Qed.

(** X7: a base frame that is not in the caller chain stops nothing: the
    result is that of a walk without base frame; and a walk that starts at
    the base frame returns nothing. *)
Theorem frame_stack_base_absent (fr b : frame) (ignoring_codes : gset Z) :
  (∀ f, f ∈ utils.chain fr → f_id f ≠ f_id b) →
  utils.frame_stack (Some fr) (Some b) ignoring_codes
  = utils.frame_stack (Some fr) None ignoring_codes ∧
  utils.frame_stack (Some b) (Some b) ignoring_codes = [].
Proof.
  intros Habsent. split.
  - rewrite !frame_stack_spec. do 2 f_equal.
    rewrite before_base_None.
    induction (utils.chain fr) as [|f frames IH]; simpl; [done|].
    unfold frame_is. rewrite bool_decide_eq_false_2.
    + rewrite IH; [done|]. intros f' Hf'. apply Habsent. by right.
    + apply Habsent. by left.
  - simpl. rewrite frame_stack_loop_unfold. simpl. unfold frame_is.
    by rewrite bool_decide_eq_true_2.
Qed.

Lemma frame_stack_base_absent_witness :
  utils.frame_stack (Some frame_b) (Some frame_c) ∅
  = utils.frame_stack (Some frame_b) None ∅ ∧
  utils.frame_stack (Some frame_c) (Some frame_c) ∅ = [].
Proof.
  apply (frame_stack_base_absent frame_b frame_c ∅).
  intros f Hf. vm_compute in Hf.
  apply elem_of_cons in Hf as [->|Hf]; [vm_compute; discriminate|].
  apply elem_of_cons in Hf as [->|Hf]; [vm_compute; discriminate|].
  by apply elem_of_nil in Hf.
Defined.

(** * Further properties of [deferral] *)


(** With two registered calls of which the one registered last raises,
    the one registered first is not made. *)
Example deferral_unwinds_prefix_example :
  utils.deferral (utils.logged invoke_add_fail)
    [utils.Defer 7; utils.Do 5; utils.Defer 1] (0, [])
  = (Raise (OtherError 1), (5, [5] ++ [] ++ [1])).
Proof. reflexivity. Qed.

(** * Properties of [LazyImport] *)

(** X9: once [__get__] has returned a module, every later [__get__] returns
    that module and leaves the instance as it is, whatever [__import__]
    would do then: nothing is imported twice.  A [__get__] that raises
    leaves the instance without module, so that the next one imports
    again. *)
Theorem lazy_import_caches {Module : Type}
    (__import__ : string → outcome Module)
    (self : LazyImport.LazyImport Module) :
  (∀ m self',
     LazyImport.__get__ __import__ self = (Ok m, self') →
     LazyImport.module_name self' = LazyImport.module_name self ∧
     ∀ __import__', LazyImport.__get__ __import__' self' = (Ok m, self')) ∧
  (∀ e self',
     LazyImport.__get__ __import__ self = (Raise e, self') →
     self' = self ∧ LazyImport.module self = None ∧
     __import__ (LazyImport.module_name self) = Raise e).
Proof.
  unfold LazyImport.__get__. split.
  - intros m self'. destruct (LazyImport.module self) as [m0|] eqn:Hm.
    + intros [= <- <-]. split; [done|]. intros __import__'. by rewrite Hm.
    + destruct (__import__ (LazyImport.module_name self)) as [m0|e];
        intros [= <- <-]; done.
  - intros e self'. destruct (LazyImport.module self) as [m0|]; [done|].
    destruct (__import__ (LazyImport.module_name self)) as [m0|e0];
      intros [= <- <-]; done.
Qed.

(** * Further properties of [ContextualTimer] *)

Section TimerMore.
Variable detect_context : outcome (option Z).

Lemma elapsed_entry_elapsed (clock : Z) (ctx : Z)
    (self : timers.ContextualTimer) :
  timers.__call__ detect_context clock (Some ctx) self
  = Ok (entry_elapsed clock (timers.times_get self (Some ctx))).
Proof.
  rewrite elapsed_of_entry. unfold entry_elapsed.
  by destruct (timers.times_get self (Some ctx)) as [? []].
Qed.

Lemma times_get_insert (k : option Z) (entry : Z * option Z)
    (m : gmap (option Z) (Z * option Z)) :
  timers.times_get (timers.mkContextualTimer (<[k := entry]> m)) k = entry.
Proof. unfold timers.times_get. simpl. by rewrite lookup_insert_eq. Qed.

Lemma times_get_insert_ne (k k' : option Z) (entry : Z * option Z)
    (m : gmap (option Z) (Z * option Z)) :
  k ≠ k' →
  timers.times_get (timers.mkContextualTimer (<[k := entry]> m)) k'
  = timers.times_get (timers.mkContextualTimer m) k'.
Proof.
  intros Hne. unfold timers.times_get. simpl. by rewrite lookup_insert_ne.
Qed.
End TimerMore.

(** X10: after [pause(ctx)] the elapsed time of [ctx] is the one at the
    pause whatever the clock reads, and a further [pause(ctx)] changes
    nothing. *)
Theorem paused_elapsed_constant (detect_context : outcome (option Z))
    (t : Z) (ctx : Z) (self : timers.ContextualTimer) :
  ∃ E self1,
    timers.__call__ detect_context t (Some ctx) self = Ok E ∧
    timers.pause detect_context t (Some ctx) self = (Ok (), self1) ∧
    (∀ clock, timers.__call__ detect_context clock (Some ctx) self1 = Ok E) ∧
    (∀ t', timers.pause detect_context t' (Some ctx) self1 = (Ok (), self1)).
Proof.
  destruct (pause_entry detect_context t ctx self) as (E & HE & Hpause).
  eexists E, _. split; [done|split; [done|]].
  assert (∀ clock,
    timers.__call__ detect_context clock (Some ctx)
      (timers.mkContextualTimer
         (<[Some ctx := (E, None)]> (timers._contextual_times self)))
    = Ok E) as Hconst.
  { intros clock. by rewrite elapsed_entry_elapsed, times_get_insert. }
  split; [done|]. intros t'.
  destruct (pause_entry detect_context t' ctx
              (timers.mkContextualTimer
                 (<[Some ctx := (E, None)]> (timers._contextual_times self))))
    as (E' & HE' & ->).
  rewrite Hconst in HE'. injection HE' as <-. simpl.
  by rewrite insert_insert_eq.
Qed.

(** X11: while a context is not paused, whether it has an entry or not, its
    elapsed time advances as the clock does: two readings of the elapsed
    time differ by what the clock advanced between them. *)
Theorem running_elapsed_follows_clock (detect_context : outcome (option Z))
    (ctx : Z) (self : timers.ContextualTimer) (c1 c2 : Z) :
  (∀ accumulated,
     timers._contextual_times self !! Some ctx ≠ Some (accumulated, None)) →
  ∃ E1 E2,
    timers.__call__ detect_context c1 (Some ctx) self = Ok E1 ∧
    timers.__call__ detect_context c2 (Some ctx) self = Ok E2 ∧
    E2 - E1 = c2 - c1.
Proof.
  intros Hrunning. rewrite !elapsed_entry_elapsed. eexists _, _.
  split; [done|split; [done|]].
  unfold timers.times_get.
  destruct (timers._contextual_times self !! Some ctx)
    as [[accumulated [resumed_at|]]|] eqn:Hentry; simpl; [lia| |lia].
  by destruct (Hrunning accumulated).
Qed.

Lemma running_elapsed_follows_clock_witness :
  ∃ E1 E2,
    timers.__call__ timers.detect_context 12 (Some 1)
      (timers.mkContextualTimer {[Some 1 := (4, Some 10)]}) = Ok E1 ∧
    timers.__call__ timers.detect_context 30 (Some 1)
      (timers.mkContextualTimer {[Some 1 := (4, Some 10)]}) = Ok E2 ∧
    E2 - E1 = 30 - 12.
Proof.
  apply (running_elapsed_follows_clock timers.detect_context 1
           (timers.mkContextualTimer {[Some 1 := (4, Some 10)]}) 12 30).
  intros accumulated. vm_compute. discriminate.
Defined.

(** X12: [pause] and [resume] of a context change the elapsed time of no
    other context. *)
Theorem other_contexts_unchanged (detect_context : outcome (option Z))
    (t clock : Z) (ctx ctx' : Z) (self : timers.ContextualTimer) :
  ctx ≠ ctx' →
  timers.__call__ detect_context clock (Some ctx')
    (snd (timers.pause detect_context t (Some ctx) self))
  = timers.__call__ detect_context clock (Some ctx') self ∧
  timers.__call__ detect_context clock (Some ctx')
    (snd (timers.resume detect_context t (Some ctx) self))
  = timers.__call__ detect_context clock (Some ctx') self.
Proof.
  intros Hne.
  destruct (pause_entry detect_context t ctx self) as (E & _ & ->).
  rewrite resume_entry, !elapsed_entry_elapsed. simpl.
  rewrite !times_get_insert_ne by congruence. by destruct self.
Qed.

Lemma other_contexts_unchanged_witness :
  timers.__call__ timers.detect_context 30 (Some 2)
    (snd (timers.pause timers.detect_context 20 (Some 1)
            (timers.mkContextualTimer {[Some 2 := (4, Some 10)]})))
  = timers.__call__ timers.detect_context 30 (Some 2)
      (timers.mkContextualTimer {[Some 2 := (4, Some 10)]}) ∧
  timers.__call__ timers.detect_context 30 (Some 2)
    (snd (timers.resume timers.detect_context 20 (Some 1)
            (timers.mkContextualTimer {[Some 2 := (4, Some 10)]})))
  = timers.__call__ timers.detect_context 30 (Some 2)
      (timers.mkContextualTimer {[Some 2 := (4, Some 10)]}).
Proof.
  apply (other_contexts_unchanged timers.detect_context 20 30 1 2
           (timers.mkContextualTimer {[Some 2 := (4, Some 10)]})).
  lia.
Defined.

(** X13: [resume] of a context that is running since [resumed_at] drops
    the time it ran since then: at a clock reading [t] its elapsed time
    falls from [accumulated + t - resumed_at] to [accumulated]. *)
Theorem resume_while_running_drops_time (detect_context : outcome (option Z))
    (t : Z) (ctx : Z) (self : timers.ContextualTimer)
    (accumulated resumed_at : Z) :
  timers._contextual_times self !! Some ctx
  = Some (accumulated, Some resumed_at) →
  timers.__call__ detect_context t (Some ctx) self
  = Ok (accumulated + t - resumed_at) ∧
  timers.__call__ detect_context t (Some ctx)
    (snd (timers.resume detect_context t (Some ctx) self))
  = Ok accumulated.
Proof.
  intros Hentry.
  assert (timers.times_get self (Some ctx) = (accumulated, Some resumed_at))
    as Hget by (unfold timers.times_get; by rewrite Hentry).
  rewrite resume_entry, !elapsed_entry_elapsed. simpl.
  rewrite times_get_insert, Hget. simpl. split; f_equal; lia.
Qed.

Lemma resume_while_running_drops_time_witness :
  timers.__call__ timers.detect_context 30 (Some 1)
    (timers.mkContextualTimer {[Some 1 := (4, Some 10)]})
  = Ok (4 + 30 - 10) ∧
  timers.__call__ timers.detect_context 30 (Some 1)
    (snd (timers.resume timers.detect_context 30 (Some 1)
            (timers.mkContextualTimer {[Some 1 := (4, Some 10)]})))
  = Ok 4.
Proof.
  exact (resume_while_running_drops_time timers.detect_context 30 1
           (timers.mkContextualTimer {[Some 1 := (4, Some 10)]}) 4 10
           eq_refl).
Defined.

(** * Properties of [GreenletTimer] *)

Section GreenletFacts.
Variable detect_context : outcome (option Z).

(** The timer after the trace function has seen a switch. *)
Lemma trace_state (c1 c2 : Z) (event : pyval) (o t : Z)
    (self : timers.ContextualTimer) :
  GreenletTimer._trace detect_context c1 c2 event o t self
  = (Ok (),
     timers.mkContextualTimer
       (<[Some t :=
            ((timers.times_get
                (timers.mkContextualTimer
                   (<[Some o :=
                        (entry_elapsed c1 (timers.times_get self (Some o)),
                         None)]> (timers._contextual_times self)))
                (Some t)).1, Some c2)]>
          (<[Some o :=
               (entry_elapsed c1 (timers.times_get self (Some o)), None)]>
             (timers._contextual_times self)))).
Proof.
  unfold GreenletTimer._trace.
  destruct (pause_entry detect_context c1 o self) as (E & HE & ->).
  rewrite elapsed_entry_elapsed in HE. injection HE as <-.
  by rewrite resume_entry.
Qed.
End GreenletFacts.

(** X14: when the trace function sees a switch from a greenlet to another
    one, the elapsed time of the first stays what it was at the switch, the
    elapsed time of the second restarts from what it had accumulated, and
    the elapsed time of every other context is as before. *)
Theorem trace_switches_contexts (detect_context : outcome (option Z))
    (c1 c2 : Z) (event : pyval) (o t : Z) (self : timers.ContextualTimer) :
  o ≠ t →
  ∃ E self',
    timers.__call__ detect_context c1 (Some o) self = Ok E ∧
    GreenletTimer._trace detect_context c1 c2 event o t self
    = (Ok (), self') ∧
    (∀ clock, timers.__call__ detect_context clock (Some o) self' = Ok E) ∧
    (∀ clock,
       timers.__call__ detect_context clock (Some t) self'
       = Ok ((timers.times_get self (Some t)).1 + clock - c2)) ∧
    (∀ k clock, k ≠ o → k ≠ t →
       timers.__call__ detect_context clock (Some k) self'
       = timers.__call__ detect_context clock (Some k) self).
Proof.
  intros Hne. eexists _, _.
  split; [apply elapsed_entry_elapsed|]. split; [apply trace_state|].
  split; [|split].
  - intros clock. rewrite elapsed_entry_elapsed.
    rewrite times_get_insert_ne by congruence. by rewrite times_get_insert.
  - intros clock. rewrite elapsed_entry_elapsed, times_get_insert.
    rewrite times_get_insert_ne by congruence. by destruct self.
  - intros k clock Hko Hkt. rewrite !elapsed_entry_elapsed.
    rewrite !times_get_insert_ne by congruence. by destruct self.
Qed.

Lemma trace_switches_contexts_witness :
  ∃ E self',
    timers.__call__ timers.detect_context 20 (Some 1) timers.__new__ = Ok E ∧
    GreenletTimer._trace timers.detect_context 20 21 PyNone 1 2 timers.__new__
    = (Ok (), self') ∧
    (∀ clock, timers.__call__ timers.detect_context clock (Some 1) self'
              = Ok E) ∧
    (∀ clock,
       timers.__call__ timers.detect_context clock (Some 2) self'
       = Ok ((timers.times_get timers.__new__ (Some 2)).1 + clock - 21)) ∧
    (∀ k clock, k ≠ 1 → k ≠ 2 →
       timers.__call__ timers.detect_context clock (Some k) self'
       = timers.__call__ timers.detect_context clock (Some k) timers.__new__).
Proof.
  apply (trace_switches_contexts timers.detect_context 20 21 PyNone 1 2
           timers.__new__).
  lia.
Defined.

Section TotalElapsed.
Implicit Types m : gmap (option Z) (Z * option Z).

Lemma total_insert_None (clock : Z) (k : option Z) (entry : Z * option Z) m :
  m !! k = None →
  total_elapsed clock (timers.mkContextualTimer (<[k := entry]> m))
  = entry_elapsed clock entry + total_elapsed clock (timers.mkContextualTimer m).
Proof.
  intros Hk. unfold total_elapsed. simpl.
  rewrite map_fold_insert_L; [done| |done]. intros. lia.
Qed.

Lemma total_delete (clock : Z) (k : option Z) (entry : Z * option Z) m :
  m !! k = Some entry →
  total_elapsed clock (timers.mkContextualTimer m)
  = entry_elapsed clock entry
    + total_elapsed clock (timers.mkContextualTimer (delete k m)).
Proof.
  intros Hk. unfold total_elapsed. simpl.
  rewrite (map_fold_delete_L _ _ k entry m); [done| |done]. intros. lia.
Qed.

Lemma total_insert (clock : Z) (k : option Z) (entry : Z * option Z) m :
  total_elapsed clock (timers.mkContextualTimer (<[k := entry]> m))
  = entry_elapsed clock entry
    + total_elapsed clock (timers.mkContextualTimer (delete k m)).
Proof.
  rewrite <- insert_delete_eq. apply total_insert_None, lookup_delete_eq.
Qed.

Lemma total_paused_const (T T' : Z) m :
  (∀ k entry, m !! k = Some entry → entry.2 = None) →
  total_elapsed T (timers.mkContextualTimer m)
  = total_elapsed T' (timers.mkContextualTimer m).
Proof.
  induction m as [|k entry m Hk IH] using map_ind; intros Hpaused; [done|].
  rewrite !total_insert_None by done. rewrite IH.
  - pose proof (Hpaused k entry (lookup_insert_eq _ _ _)) as Hentry.
    destruct entry as [p r]. simpl in Hentry. by subst r.
  - intros k' entry' Hk'. apply (Hpaused k').
    rewrite lookup_insert_ne; [done|]. intros <-. congruence.
Qed.
End TotalElapsed.

Section Conservation.
Variable detect_context : outcome (option Z).

(** A switch from the running greenlet to another one keeps the
    invariant, and the greenlet entered has an entry. *)
Lemma switch_invariant_step (current lost c1 c2 : Z) (event : pyval)
    (tgt : Z) (self : timers.ContextualTimer) :
  switch_invariant current lost self → tgt ≠ current →
  switch_invariant tgt (lost + (c2 - c1))
    (snd (GreenletTimer._trace detect_context c1 c2 event current tgt self)) ∧
  is_Some
    (timers._contextual_times
       (snd (GreenletTimer._trace detect_context c1 c2 event current tgt self))
     !! Some tgt).
Proof.
  intros (Hothers & Hcur & Htotal) Hne.
  rewrite trace_state. simpl.
  rewrite times_get_insert_ne by congruence.
  destruct self as [m]. simpl in *.
  set (E := entry_elapsed c1 (timers.times_get (timers.mkContextualTimer m)
                                (Some current))) in *.
  set (pt := (timers.times_get (timers.mkContextualTimer m) (Some tgt)).1).
  split; [|by rewrite lookup_insert_eq].
  split; [|split]; simpl.
  - intros k entry Hk. rewrite lookup_insert_ne by done.
    destruct (decide (k = Some current)) as [->|Hkc].
    + rewrite lookup_insert_eq. by intros [= <-].
    + rewrite lookup_insert_ne by done. by apply Hothers.
  - intros p. by rewrite lookup_insert_eq.
  - intros clock. rewrite times_get_insert. simpl.
    rewrite delete_insert_eq, delete_insert_ne by congruence.
    rewrite total_insert. simpl.
    specialize (Htotal c1). fold E in Htotal.
    assert (total_elapsed c1
              (timers.mkContextualTimer (delete (Some current) m))
            = pt + total_elapsed clock
                     (timers.mkContextualTimer
                        (delete (Some current) (delete (Some tgt) m))))
      as Hsplit.
    { rewrite (delete_delete m (Some current)).
      rewrite (total_paused_const clock c1).
      2:{ intros k entry Hk.
          destruct (decide (k = Some tgt)) as [->|Hkt];
            [by rewrite lookup_delete_eq in Hk|].
          rewrite lookup_delete_ne in Hk by done.
          destruct (decide (k = Some current)) as [->|Hkc];
            [by rewrite lookup_delete_eq in Hk|].
          rewrite lookup_delete_ne in Hk by done. by eapply Hothers. }
      subst pt. unfold timers.times_get. simpl.
      destruct (m !! Some tgt) as [[p r]|] eqn:Htgt; simpl.
      - assert (r = None) as ->.
        { apply (Hothers (Some tgt) (p, r)); [congruence|done]. }
        rewrite (total_delete c1 (Some tgt) (p, None)); [done|].
        rewrite lookup_delete_ne; [done|congruence].
      - rewrite (delete_id (delete (Some current) m) (Some tgt)); [lia|].
        rewrite lookup_delete_ne; [done|congruence]. }
    lia.
Qed.

Lemma switch_invariant_new (current : Z) :
  switch_invariant current 0 timers.__new__.
Proof.
  split; [|split]; simpl.
  - intros k entry _. by rewrite lookup_empty.
  - intros p. by rewrite lookup_empty.
  - intros clock. rewrite delete_empty. unfold timers.times_get. simpl.
    rewrite lookup_empty. simpl. unfold total_elapsed. simpl.
    rewrite map_fold_empty. lia.
Qed.

Lemma switch_invariant_trace_all (switches : list GreenletTimer.switch)
    (current lost : Z) (self : timers.ContextualTimer) :
  switch_invariant current lost self →
  GreenletTimer.follows current switches = true →
  switch_invariant (GreenletTimer.last_target current switches)
    (lost + GreenletTimer.switching_time switches)
    (GreenletTimer.trace_all detect_context switches self) ∧
  (switches ≠ [] ∨ is_Some (timers._contextual_times self !! Some current) →
   is_Some
     (timers._contextual_times
        (GreenletTimer.trace_all detect_context switches self)
      !! Some (GreenletTimer.last_target current switches))).
Proof.
  revert current lost self.
  induction switches as [|sw switches IH]; intros current lost self Hinv.
  - intros _. simpl. rewrite Z.add_0_r. split; [done|]. by intros [|].
  - simpl. intros [[Ho%bool_decide_eq_true Ht%negb_true_iff]%andb_prop
                     Hrest]%andb_prop.
    apply bool_decide_eq_false in Ht.
    destruct (switch_invariant_step current lost
                (GreenletTimer.clock_pause sw) (GreenletTimer.clock_resume sw)
                PyNone (GreenletTimer.target sw) self Hinv Ht)
      as [Hinv' Hentry].
    rewrite Ho.
    destruct (IH _ _ _ Hinv' Hrest) as [Hfinal Hsome].
    unfold GreenletTimer.trace_all, GreenletTimer.last_target in *.
    replace (lost + (GreenletTimer.clock_resume sw
                     - GreenletTimer.clock_pause sw
                     + GreenletTimer.switching_time switches))
      with (lost + (GreenletTimer.clock_resume sw
                    - GreenletTimer.clock_pause sw)
            + GreenletTimer.switching_time switches) by lia.
    split; [done|]. intros _. apply Hsome. by right.
Qed.
End Conservation.

(** X15: the trace function having seen, from a new timer on, one or more
    switches of which each leaves the greenlet that the one before it
    entered for another one, the elapsed times of all the contexts of the
    timer add up to the reading of the clock, less the time the clock
    advanced between the two readings of each switch. *)
Theorem greenlet_time_conserved (detect_context : outcome (option Z))
    (current : Z) (switches : list GreenletTimer.switch) (clock : Z) :
  switches ≠ [] →
  GreenletTimer.follows current switches = true →
  total_elapsed clock
    (GreenletTimer.trace_all detect_context switches timers.__new__)
  = clock - GreenletTimer.switching_time switches.
Proof.
  intros Hne Hfollows.
  destruct (switch_invariant_trace_all detect_context switches current 0
              timers.__new__ (switch_invariant_new current) Hfollows)
    as [(_ & _ & Htotal) Hsome].
  destruct Hsome as [entry Hentry]; [by left|].
  specialize (Htotal clock).
  destruct (GreenletTimer.trace_all detect_context switches timers.__new__)
    as [m]. simpl in *.
  rewrite (total_delete clock _ entry m Hentry).
  unfold timers.times_get in Htotal. simpl in Htotal.
  rewrite Hentry in Htotal. simpl in Htotal. lia.
Qed.

Lemma greenlet_time_conserved_witness :
  total_elapsed 100
    (GreenletTimer.trace_all timers.detect_context
       [GreenletTimer.mkSwitch 10 11 1 2; GreenletTimer.mkSwitch 30 32 2 3;
        GreenletTimer.mkSwitch 50 51 3 1] timers.__new__)
  = 100 - 4.
Proof.
  apply (greenlet_time_conserved timers.detect_context 1
           [GreenletTimer.mkSwitch 10 11 1 2; GreenletTimer.mkSwitch 30 32 2 3;
            GreenletTimer.mkSwitch 50 51 3 1] 100).
  - discriminate.
  - reflexivity.
Defined.

(** * Further properties of the samplers *)

Lemma profile_all_accepted {P : Type} (sample : frame → P → P)
    (events : list event) (self : samplers.TracingSampler) (profiler : P) :
  profile_all sample events self profiler
  = (samplers.mkTracingSampler (samplers.interval self)
       (default (samplers.sampled_at self)
          (ev_clock <$> last (accepted (samplers.interval self)
                                (samplers.sampled_at self) events))),
     foldl (λ p ev, samplers.sample_values sample (event_frames ev) p)
       profiler
       (accepted (samplers.interval self) (samplers.sampled_at self) events)).
Proof.
  unfold profile_all. revert self profiler.
  induction events as [|ev events IH]; intros [interval sampled_at] profiler.
  - done.
  - simpl. unfold samplers._profile at 2. simpl.
    case_bool_decide as Ht.
    + by rewrite IH.
    + rewrite IH. simpl. f_equal. f_equal.
      destruct (accepted interval (ev_clock ev) events) as [|ev' evs] eqn:Hacc;
        [done|].
      rewrite last_cons_cons.
      destruct (last (ev' :: evs)) as [ev''|] eqn:Hlast; [done|].
      by apply last_None in Hlast.
Qed.

Lemma accepted_gaps (interval sampled_at : Z) (events : list event) :
  (∀ a, accepted interval sampled_at events !! 0%nat = Some a →
        interval ≤ ev_clock a - sampled_at) ∧
  (∀ i a b,
     accepted interval sampled_at events !! i = Some a →
     accepted interval sampled_at events !! S i = Some b →
     interval ≤ ev_clock b - ev_clock a).
Proof.
  revert sampled_at.
  induction events as [|ev events IH]; intros sampled_at; simpl; [done|].
  case_bool_decide as Ht; [apply IH|].
  destruct (IH (ev_clock ev)) as [Hfirst Hnext]. split.
  - intros a [= <-]. lia.
  - intros [|i] a b; simpl.
    + intros [= <-]. apply Hfirst.
    + apply Hnext.
Qed.

(** X16: over any sequence of calls of the callback, the samples are taken
    at the events that pass the test of the interval, one call of [sample]
    for each thread of each such event, and [sampled_at] ends at the clock
    reading of the last of them; the clock readings of two samples in a row
    are at least [interval] apart, and the first is at least [interval]
    after the [sampled_at] the sampler started with. *)
Theorem tracing_samples_interval_apart {P : Type} (sample : frame → P → P)
    (events : list event) (self : samplers.TracingSampler) (profiler : P) :
  profile_all sample events self profiler
  = (samplers.mkTracingSampler (samplers.interval self)
       (default (samplers.sampled_at self)
          (ev_clock <$> last (accepted (samplers.interval self)
                                (samplers.sampled_at self) events))),
     foldl (λ p ev, samplers.sample_values sample (event_frames ev) p)
       profiler
       (accepted (samplers.interval self) (samplers.sampled_at self) events))
  ∧
  (∀ a, accepted (samplers.interval self) (samplers.sampled_at self) events
        !! 0%nat = Some a →
        samplers.interval self ≤ ev_clock a - samplers.sampled_at self) ∧
  (∀ i a b,
     accepted (samplers.interval self) (samplers.sampled_at self) events !! i
     = Some a →
     accepted (samplers.interval self) (samplers.sampled_at self) events
     !! S i = Some b →
     samplers.interval self ≤ ev_clock b - ev_clock a).
Proof.
  split; [apply profile_all_accepted|apply accepted_gaps].
Qed.

Lemma foldl_record_sample (frames log : list frame) :
  foldl (λ p f, samplers.record_sample f p) log frames = log ++ frames.
Proof.
  revert log. induction frames as [|f frames IH]; intros log; simpl.
  - by rewrite app_nil_r.
  - rewrite IH. unfold samplers.record_sample. by rewrite <- app_assoc.
Qed.

Lemma sample_values_recorded (frames : gmap Z frame) (log : list frame) :
  samplers.sample_values samplers.record_sample frames log
  = log ++ (map_to_list frames).*2.
Proof. apply foldl_record_sample. Qed.

(** X17: the signal handler gives the profiler one frame more than there
    are live threads when [main_thread_id] is not the identifier of a live
    thread, and as many as there are live threads otherwise; the
    interrupted frame is always among them, also when no thread is
    reported. *)
Theorem handle_signal_sample_count (self : samplers.ItimerSampler)
    (current_frames : gmap Z frame) (log : list frame) (signum : Z)
    (fr : frame) :
  ∃ sampled,
    samplers.handle_signal samplers.record_sample self current_frames log
      signum fr
    = log ++ sampled ∧
    fr ∈ sampled ∧
    length sampled
    = (match current_frames !! samplers.main_thread_id self with
       | Some _ => size current_frames
       | None => S (size current_frames)
       end).
Proof.
  unfold samplers.handle_signal. rewrite sample_values_recorded.
  eexists. split; [done|]. split.
  - apply list_elem_of_fmap.
    exists (samplers.main_thread_id self, fr). split; [done|].
    apply elem_of_map_to_list, lookup_insert_eq.
  - rewrite length_fmap, length_map_to_list, map_size_insert.
    by destruct (current_frames !! samplers.main_thread_id self).
Qed.

(** * [Runnable] and the state of the process *)

(** On generators that act on no state, [start] and [stop] with a state do
    what [start] and [stop] without do, and leave the state as it is. *)
Lemma next_lift {W : Type} (g : generator) (w : W) :
  stateful.next (lift g) w = (fst (next g), lift (snd (next g)), w).
Proof. by destruct g. Qed.

Lemma start_lift {W Args : Type} (run : Args → outcome generator)
    (args : Args) (self : utils.Runnable) (w : W) :
  stateful.start (lift_run run) args (lift_runnable self) w
  = (fst (utils.start run args self),
     lift_runnable (snd (utils.start run args self)), w).
Proof.
  unfold stateful.start, utils.start, lift_run, stateful.is_running,
    utils.is_running, lift_runnable.
  destruct self as [[g0|]]; simpl; [done|].
  destruct (run args) as [g|e]; [|done].
  rewrite next_lift. destruct (next g) as [[v|e] g']; simpl.
  - by destruct (is_not_None v).
  - by destruct e.
Qed.

Lemma stop_lift {W : Type} (self : utils.Runnable) (w : W) :
  stateful.stop (lift_runnable self) w
  = (fst (utils.stop self), lift_runnable (snd (utils.stop self)), w).
Proof.
  unfold stateful.stop, utils.stop, lift_runnable.
  destruct self as [[g|]]; simpl; [|done].
  rewrite next_lift. destruct (next g) as [[v|e] g']; simpl; [done|].
  by destruct e.
Qed.

(** * Properties of the [run] methods of the samplers *)

Lemma unwind_two (c1 c2 : process.call) (s : process.state) :
  utils.unwind process.invoke [c1; c2] s
  = match process.invoke c2 s with
    | (Raise e, s') => (Raise e, s')
    | (Ok _, s') =>
        match process.invoke c1 s' with
        | (Raise e, s'') => (Raise e, s'')
        | (Ok _, s'') => (Ok (), s'')
        end
    end.
Proof.
  unfold utils.unwind. simpl.
  destruct (process.invoke c2 s) as [[[]|e] s']; [|done].
  by destruct (process.invoke c1 s') as [[[]|e] s''].
Qed.

(** X18: in the main thread and with an interval that is not negative,
    [start(profiler)] of an [ItimerSampler] installs its handler for
    [SIGPROF] and arms the timer with the interval, and changes nothing
    else; [stop()] then puts back the handler and the timer that [start]
    found, whatever they have become in between, and changes nothing else:
    [start] followed at once by [stop] leaves the process as it was. *)
Theorem itimer_sampler_restores (self : samplers.ItimerSampler)
    (profiler : Z) (s : process.state) :
  process.main_thread s = true →
  0 ≤ samplers.itimer_interval self →
  0 ≤ (process.itimer_prof s).1 ∧ 0 ≤ (process.itimer_prof s).2 →
  ∃ running,
    stateful.start (ItimerSampler_run self) profiler
      (stateful.mkRunnable None) s
    = (Ok (), running,
       process.mkState (process.PyHandler profiler)
         (samplers.itimer_interval self, samplers.itimer_interval self)
         (process.sys_profile s) (process.threading_profile s)
         (process.greenlet_trace s) true) ∧
    stateful.is_running running = true ∧
    (∀ s2, process.main_thread s2 = true →
       stateful.stop running s2
       = (Ok (), stateful.mkRunnable None,
          process.mkState (process.sigprof_handler s) (process.itimer_prof s)
            (process.sys_profile s2) (process.threading_profile s2)
            (process.greenlet_trace s2) true)) ∧
    stateful.stop running
      (process.mkState (process.PyHandler profiler)
         (samplers.itimer_interval self, samplers.itimer_interval self)
         (process.sys_profile s) (process.threading_profile s)
         (process.greenlet_trace s) true)
    = (Ok (), stateful.mkRunnable None, s).
Proof.
  intros Hmain Ht [Hd Hi].
  destruct s as [h [d i] sp tp gt mt]. simpl in *. subst mt.
  assert (∀ s2, process.main_thread s2 = true →
    process.leave_deferral
      [process.call_signal h; process.call_setitimer d i]
      stateful.Returned s2
    = (stateful.Returned,
       process.mkState h (d, i) (process.sys_profile s2)
         (process.threading_profile s2) (process.greenlet_trace s2) true))
    as Hleave.
  { intros [h2 di2 sp2 tp2 gt2 mt2] Hmain2. simpl in *. subst mt2.
    unfold process.leave_deferral. rewrite unwind_two. simpl.
    unfold process.setitimer. simpl.
    rewrite bool_decide_eq_true_2 by done. done. }
  eexists. unfold stateful.start, ItimerSampler_run. simpl.
  unfold process.setitimer. simpl.
  rewrite bool_decide_eq_true_2 by done. simpl.
  split; [reflexivity|]. split; [done|]. split.
  - intros s2 Hmain2. unfold stateful.stop. simpl.
    by rewrite (Hleave s2 Hmain2).
  - unfold stateful.stop. simpl. by rewrite Hleave.
Qed.

Lemma itimer_sampler_restores_witness :
  ∃ running,
    stateful.start (ItimerSampler_run (samplers.mkItimerSampler 10 1)) 7
      (stateful.mkRunnable None)
      (process.mkState process.SIG_DFL (0, 0) None None None true)
    = (Ok (), running,
       process.mkState (process.PyHandler 7) (10, 10) None None None true) ∧
    stateful.stop running
      (process.mkState (process.PyHandler 7) (10, 10) None None None true)
    = (Ok (), stateful.mkRunnable None,
       process.mkState process.SIG_DFL (0, 0) None None None true).
Proof.
  destruct (itimer_sampler_restores (samplers.mkItimerSampler 10 1) 7
              (process.mkState process.SIG_DFL (0, 0) None None None true))
    as (running & Hstart & _ & _ & Hstop).
  - reflexivity.
  - simpl. lia.
  - simpl. lia.
  - exists running. split; [exact Hstart|exact Hstop].
Defined.

(** X19: when the setup of an [ItimerSampler] fails, outside the main
    thread or with a negative interval, [start(profiler)] raises and leaves
    the process as it found it, the handler of [SIGPROF] included; the
    instance is left running, and a [stop()] then succeeds and changes
    nothing. *)
Theorem itimer_sampler_failed_setup (self : samplers.ItimerSampler)
    (profiler : Z) (s : process.state) :
  process.main_thread s = false ∨ samplers.itimer_interval self < 0 →
  ∃ e running,
    stateful.start (ItimerSampler_run self) profiler
      (stateful.mkRunnable None) s
    = (Raise e, running, s) ∧
    e = (if process.main_thread s then process.ItimerError
         else process.ValueError) ∧
    stateful.is_running running = true ∧
    (∀ s2, stateful.stop running s2 = (Ok (), stateful.mkRunnable None, s2)).
Proof.
  intros Hfail. unfold stateful.start, ItimerSampler_run. simpl.
  unfold process.signal.
  destruct (process.main_thread s) eqn:Hmain.
  - destruct Hfail as [|Ht]; [done|]. simpl.
    unfold process.setitimer. simpl.
    rewrite bool_decide_eq_false_2 by lia.
    unfold process.leave_deferral, utils.unwind. simpl.
    unfold process.signal. simpl.
    destruct s as [h di sp tp gt mt]. simpl in *. subst mt.
    eexists _, _. split; [reflexivity|]. done.
  - unfold process.leave_deferral, utils.unwind. simpl.
    eexists _, _. split; [reflexivity|]. done.
Qed.

Lemma itimer_sampler_failed_setup_witness :
  ∃ e running,
    stateful.start (ItimerSampler_run (samplers.mkItimerSampler (-1) 1)) 7
      (stateful.mkRunnable None)
      (process.mkState process.SIG_IGN (3, 4) None None None true)
    = (Raise e, running,
       process.mkState process.SIG_IGN (3, 4) None None None true) ∧
    e = process.ItimerError ∧
    stateful.is_running running = true.
Proof.
  destruct (itimer_sampler_failed_setup (samplers.mkItimerSampler (-1) 1) 7
              (process.mkState process.SIG_IGN (3, 4) None None None true))
    as (e & running & Hstart & He & Hrunning & _).
  - right. simpl. lia.
  - exists e, running. split; [exact Hstart|]. split; [exact He|exact Hrunning].
Defined.

(** X20: [start(profiler)] of a [TracingSampler] sets the profile function
    of the thread and that of new threads, and [stop()] sets both to
    [None], whatever they were before [start] and whatever they have become
    in between: a profile function that was installed before is not put
    back.  Neither call raises nor changes anything else. *)
Theorem tracing_sampler_clears_profile (self : samplers.TracingSampler)
    (profiler : Z) (s : process.state) :
  ∃ running,
    stateful.start (TracingSampler_run self) profiler
      (stateful.mkRunnable None) s
    = (Ok (), running,
       process.mkState (process.sigprof_handler s) (process.itimer_prof s)
         (Some profiler) (Some profiler) (process.greenlet_trace s)
         (process.main_thread s)) ∧
    stateful.is_running running = true ∧
    (∀ s2,
       stateful.stop running s2
       = (Ok (), stateful.mkRunnable None,
          process.mkState (process.sigprof_handler s2)
            (process.itimer_prof s2) None None (process.greenlet_trace s2)
            (process.main_thread s2))).
Proof.
  eexists. unfold stateful.start, TracingSampler_run. simpl.
  split; [reflexivity|]. split; [done|]. intros s2.
  unfold stateful.stop. simpl. reflexivity.
Qed.

(** X21: when the module [greenlet] is there, [start(profiler)] of a
    [GreenletTimer] installs its trace function and [stop()] sets the trace
    function of [greenlet] to [None], whatever it was before; when reading
    the module raises, [start] raises that error, changes nothing in the
    process and leaves the instance running. *)
Theorem greenlet_timer_trace (greenlet : outcome unit) (trace profiler : Z)
    (s : process.state) :
  ∃ running,
    stateful.is_running running = true ∧
    stateful.start (GreenletTimer_run greenlet trace) profiler
      (stateful.mkRunnable None) s
    = (match greenlet with
       | Ok _ =>
           (Ok (), running,
            process.mkState (process.sigprof_handler s)
              (process.itimer_prof s) (process.sys_profile s)
              (process.threading_profile s) (Some trace)
              (process.main_thread s))
       | Raise StopIteration =>
           (Raise (TypeError "run() must yield just one time"), running, s)
       | Raise e => (Raise e, running, s)
       end) ∧
    (greenlet = Ok () →
     ∀ s2,
       stateful.stop running s2
       = (Ok (), stateful.mkRunnable None,
          process.mkState (process.sigprof_handler s2)
            (process.itimer_prof s2) (process.sys_profile s2)
            (process.threading_profile s2) None (process.main_thread s2))).
Proof.
  unfold stateful.start, GreenletTimer_run. simpl.
  destruct greenlet as [[]|e]; simpl.
  - eexists. split; [|split; [reflexivity|]]; [done|].
    intros _ s2. done.
  - destruct e; (eexists; split; [|split; [reflexivity|]]; done).
Qed.

(** * Further properties of [Profiler] *)

(** X22: [start()] on a profiler that is running raises [RuntimeError], but
    only after it has cleared the statistics and replaced both start times:
    the elapsed times of [result()] are then counted from the failed
    [start()]. *)
Theorem profiler_start_while_running {Stats : Type} (clear : Stats → Stats)
    (run : unit → outcome generator) (clock time : Z)
    (self : profiler.Profiler Stats) :
  utils.is_running (profiler.runnable self) = true →
  profiler.start clear run clock time self
  = (Raise (RuntimeError "Already started"),
     profiler.mkProfiler (clear (profiler.stats self))
       (profiler.base_frame self) (profiler.ignoring_codes self)
       (Some clock) (Some time) (profiler.runnable self)) ∧
  ∀ clock' time',
    fst (profiler.result clock' time'
           (snd (profiler.start clear run clock time self)))
    = Ok (clear (profiler.stats self),
          Z.max 0 (clock' - clock), Z.max 0 (time' - time)).
Proof.
  intros Hrunning.
  assert (profiler.start clear run clock time self
          = (Raise (RuntimeError "Already started"),
             profiler.mkProfiler (clear (profiler.stats self))
               (profiler.base_frame self) (profiler.ignoring_codes self)
               (Some clock) (Some time) (profiler.runnable self))) as Hstart.
  { unfold profiler.start. simpl. by rewrite start_when_running. }
  split; [done|]. intros clock' time'. by rewrite Hstart.
Qed.

Lemma profiler_start_while_running_witness :
  profiler.start (λ _ : nat, 0%nat) run_canonical 50 60
    (profiler.mkProfiler 12%nat None ∅ (Some 1) (Some 2)
       (utils.mkRunnable (Some GenReturn)))
  = (Raise (RuntimeError "Already started"),
     profiler.mkProfiler 0%nat None ∅ (Some 50) (Some 60)
       (utils.mkRunnable (Some GenReturn))).
Proof.
  apply (profiler_start_while_running (λ _ : nat, 0%nat) run_canonical 50 60
           (profiler.mkProfiler 12%nat None ∅ (Some 1) (Some 2)
              (utils.mkRunnable (Some GenReturn)))).
  reflexivity.
Defined.

(** X23: [stop()] does not stop the clocks of [result()]: whether [stop()]
    succeeds or raises, [result()] returns after it the statistics and the
    elapsed times it would return without it, and [stop()] leaves the
    instance not running. *)
Theorem profiler_stop_keeps_result {Stats : Type} (clock time : Z)
    (self : profiler.Profiler Stats) :
  fst (profiler.result clock time (snd (profiler.stop self)))
  = fst (profiler.result clock time self) ∧
  utils.is_running (profiler.runnable (snd (profiler.stop self))) = false.
Proof.
  unfold profiler.stop.
  destruct (utils.stop (profiler.runnable self)) as [r rn] eqn:Hstop.
  simpl. split.
  - unfold profiler.result. simpl.
    by destruct (profiler._cpu_time_started self),
      (profiler._wall_time_started self).
  - destruct (utils.is_running (profiler.runnable self)) eqn:Hrunning.
    + pose proof (stop_always_stops _ Hrunning) as Hstopped.
      by rewrite Hstop in Hstopped.
    + rewrite stop_when_stopped in Hstop by done. by injection Hstop as _ <-.
Qed.

(** X24: on a profiler that [start] was called on, the elapsed times of
    [result()] never go down when the clocks do not, and from the start
    times on they advance exactly as the clocks do. *)
Theorem result_times_advance {Stats : Type} (self : profiler.Profiler Stats)
    (c0 t0 clock1 time1 clock2 time2 : Z) :
  profiler._cpu_time_started self = Some c0 →
  profiler._wall_time_started self = Some t0 →
  clock1 ≤ clock2 → time1 ≤ time2 →
  ∃ cpu1 wall1 cpu2 wall2,
    profiler.result clock1 time1 self
    = (Ok (profiler.stats self, cpu1, wall1), self) ∧
    profiler.result clock2 time2 self
    = (Ok (profiler.stats self, cpu2, wall2), self) ∧
    cpu1 ≤ cpu2 ∧ wall1 ≤ wall2 ∧
    (c0 ≤ clock1 → cpu2 - cpu1 = clock2 - clock1) ∧
    (t0 ≤ time1 → wall2 - wall1 = time2 - time1).
Proof.
  intros Hc Ht Hclock Htime. unfold profiler.result. rewrite Hc, Ht. simpl.
  eexists _, _, _, _. split; [reflexivity|]. split; [reflexivity|]. lia.
Qed.

Lemma result_times_advance_witness :
  ∃ cpu1 wall1 cpu2 wall2,
    profiler.result 7 2
      (profiler.mkProfiler () None ∅ (Some 5) (Some 4) stopped)
    = (Ok ((), cpu1, wall1),
       profiler.mkProfiler () None ∅ (Some 5) (Some 4) stopped) ∧
    profiler.result 9 8
      (profiler.mkProfiler () None ∅ (Some 5) (Some 4) stopped)
    = (Ok ((), cpu2, wall2),
       profiler.mkProfiler () None ∅ (Some 5) (Some 4) stopped) ∧
    cpu1 ≤ cpu2 ∧ wall1 ≤ wall2 ∧
    (5 ≤ 7 → cpu2 - cpu1 = 9 - 7) ∧
    (4 ≤ 2 → wall2 - wall1 = 8 - 2).
Proof.
  apply (result_times_advance
           (profiler.mkProfiler () None ∅ (Some 5) (Some 4) stopped)
           5 4 7 2 9 8); (reflexivity || lia).
Defined.

(** * [Runnable] as a context manager *)

(** X25: when [start()] raises on entering [with self:], the body is not
    run and the instance is as [start()] left it; otherwise the instance is
    not running once the block is left, whatever the body did and however
    the block ends; and when [run] yields [None] once and returns and the
    body leaves the instance alone, the block ends as the body did. *)
Theorem with_runnable_stops {A : Type} (run : unit → outcome generator)
    (body : utils.Runnable → outcome A * utils.Runnable)
    (self : utils.Runnable) :
  (∀ e self1, utils.start run () self = (Raise e, self1) →
     with_runnable run body self = (Raise e, self1)) ∧
  (∀ self1, utils.start run () self = (Ok (), self1) →
     utils.is_running (snd (with_runnable run body self)) = false) ∧
  (run () = Ok (GenYield PyNone GenReturn) →
   utils.is_running self = false →
   (∀ s, snd (body s) = s) →
   with_runnable run body self
   = (fst (body (utils.mkRunnable (Some GenReturn))), utils.mkRunnable None)).
Proof.
  unfold with_runnable, __enter__, __exit__. split; [|split].
  - intros e self1 ->. done.
  - intros self1 ->. destruct (body self1) as [r self2] eqn:Hbody.
    destruct (utils.is_running self2) eqn:Hrunning.
    + pose proof (stop_always_stops _ Hrunning) as Hstopped.
      by destruct (utils.stop self2) as [[[]|e] self3].
    + by rewrite stop_when_stopped.
  - intros Hrun Hstopped Hbody. unfold utils.start. rewrite Hstopped, Hrun.
    simpl. specialize (Hbody (utils.mkRunnable (Some GenReturn))).
    destruct (body (utils.mkRunnable (Some GenReturn))) as [r self2].
    simpl in *. by subst self2.
Qed.

(** X26: a profiler made without base frame and without ignored codes
    returns for a frame its whole caller chain, oldest first, the frame
    itself last. *)
Theorem profiler_default_frame_stack {Stats : Type} (new_stats : Stats)
    (fr : frame) :
  profiler.frame_stack (profiler.__init__ new_stats None ∅) (Some fr)
  = reverse (utils.chain fr) ∧
  last (profiler.frame_stack (profiler.__init__ new_stats None ∅) (Some fr))
  = Some fr ∧
  length (profiler.frame_stack (profiler.__init__ new_stats None ∅) (Some fr))
  = length (utils.chain fr).
Proof.
  assert (profiler.frame_stack (profiler.__init__ new_stats None ∅) (Some fr)
          = reverse (utils.chain fr)) as ->.
  { unfold profiler.frame_stack, profiler.__init__.
    cbn [profiler.base_frame profiler.ignoring_codes].
    rewrite frame_stack_spec, before_base_None.
    f_equal. by apply filter_nothing_ignored. }
  split; [done|]. split; [|apply length_reverse].
  rewrite chain_unfold, reverse_cons. apply last_snoc.
Qed.
